(** * MERN_practice: the Express routes of the user/profile API

    A shallow embedding of [server/routes/profile.js], [server/middleware/auth.js]
    and the registration route, together with the parts of the JavaScript
    runtime and of the packages (express-validator, mongoose, jsonwebtoken,
    bcrypt) those handlers call.

    Conventions.
    - A JavaScript string is a [string]; its characters are read as the code
      points U+0000..U+00FF.
    - A request body is a finite map from property names to strings; a
      property that is absent reads as [undefined] ([None]).
    - The document store is an in-memory record of collections, threaded
      through the handlers by a state-and-exception monad. *)

From Stdlib Require Import ZArith Lia String Ascii List Bool.
From stdpp Require Import base option list strings gmap fin_maps.

Set Warnings "-register-all".

Local Open Scope string_scope.
Local Open Scope list_scope.
Local Open Scope Z_scope.

(** ** JavaScript primitives *)

Module JS.

(** [if (x)] on a value that is a string or [undefined]. *)
Definition truthy (v : option string) : bool :=
  match v with
  | None => false
  | Some s => negb (String.eqb s "")
  end.

(** [String.prototype.split] with a one-character separator. *)
Fixpoint split (sep : ascii) (s : string) : list string :=
  match s with
  | EmptyString => [EmptyString]
  | String c rest =>
      if Ascii.eqb c sep then EmptyString :: split sep rest
      else match split sep rest with
           | piece :: pieces => String c piece :: pieces
           | [] => [String c EmptyString]
           end
  end.

(** [Array.prototype.join] with a one-character separator. *)
Fixpoint join (sep : ascii) (l : list string) : string :=
  match l with
  | [] => EmptyString
  | [s] => s
  | s :: rest => s +:+ String sep (join sep rest)
  end.

(** WhiteSpace and LineTerminator code points below U+0100. *)
Definition isWhiteSpace (c : ascii) : bool :=
  let n := nat_of_ascii c in
  (Nat.eqb n 9 || Nat.eqb n 10 || Nat.eqb n 11 || Nat.eqb n 12
   || Nat.eqb n 13 || Nat.eqb n 32 || Nat.eqb n 160)%bool.

Fixpoint trimStart (s : string) : string :=
  match s with
  | EmptyString => EmptyString
  | String c rest => if isWhiteSpace c then trimStart rest else s
  end.

Fixpoint trimEnd (s : string) : string :=
  match s with
  | EmptyString => EmptyString
  | String c rest =>
      match trimEnd rest with
      | EmptyString => if isWhiteSpace c then EmptyString else String c EmptyString
      | t => String c t
      end
  end.

(** [String.prototype.trim]. *)
Definition trim (s : string) : string := trimEnd (trimStart s).

(** [Array.prototype.indexOf] on an array of strings: the first position
    holding [x], or [-1]. *)
Fixpoint indexOf (l : list string) (x : string) : Z :=
  match l with
  | [] => -1
  | y :: rest =>
      if String.eqb y x then 0
      else let i := indexOf rest x in
           if i <? 0 then -1 else i + 1
  end.

(** [Array.prototype.splice(start, deleteCount)]: the array that is left.
    A negative [start] counts from the end; both arguments are clamped to
    the array. *)
Definition splice {A : Type} (l : list A) (start deleteCount : Z) : list A :=
  let len := Z.of_nat (length l) in
  let actualStart :=
    if start <? 0 then Z.max (len + start) 0 else Z.min start len in
  let actualDeleteCount := Z.min (Z.max deleteCount 0) (len - actualStart) in
  take (Z.to_nat actualStart) l
    ++ drop (Z.to_nat (actualStart + actualDeleteCount)) l.

(** [Array.prototype.unshift] with one argument. *)
Definition unshift {A : Type} (l : list A) (x : A) : list A := x :: l.

End JS.

(** ** Packages the handlers call

    The cryptographic cores, the e-mail syntax check, the avatar URL and the
    identifier format of the store are those of the packages; they are
    parameters of the development. *)

(** The identity a token carries: [{ id }]. *)
Record AuthUser := mkAuthUser { auth_id : string }.

(** Claims of a token after signing: the payload [{ user }] given to
    [jwt.sign], plus the registered claims [iat] and [exp] (seconds). *)
Record Claims := mkClaims {
  claim_user : option AuthUser;
  claim_iat : Z;
  claim_exp : Z }.

(** A token: its claims and its signature.  The base64url text of the
    compact serialisation is not modelled. *)
Record Jwt := mkJwt { jwt_claims : Claims; jwt_signature : string }.

Class Packages := {
  (** validator's [isEmail] *)
  isEmail : string -> bool;
  (** [gravatar.url(email, {s: "200", r: "pg", d: "mm"})] *)
  gravatar_url : string -> string;
  (** the Blowfish-based digest of bcrypt, from the salt string and the
      password *)
  bcrypt_digest : string -> string -> string;
  (** HMAC-SHA256 of the encoded header and claims under a secret *)
  hmac : string -> Claims -> string;
  (** whether mongoose casts a string to an ObjectId *)
  isValidObjectId : string -> bool;
  (** the ObjectId a castable string is cast to, as its 24-character
      lower-case hex string (what [toString()] and [.id] give) *)
  objectIdString : string -> string;
  (** the n-th identifier the driver generates *)
  newObjectId : nat -> string }.

(** ** Data model *)

(** Modelled from the spec: the User schema ([models/User.js] is not among
    the sources): name, email, avatar and password, plus the identifier. *)
Record User := mkUser {
  user_id : string;
  user_name : string;
  user_email : string;
  user_avatar : string;
  user_password : string }.

(** A value of a Profile path written by the create-or-update handler. *)
Inductive value :=
| VStr (s : string)
| VList (l : list string)
| VObj (o : gmap string string).

(** Modelled from the spec: the sub-documents of the Profile schema
    ([models/Profile.js] is not among the sources).  Each carries a
    system-assigned identifier; the other properties are stored as given. *)
Record Experience := mkExperience {
  exp_id : string;
  exp_title : option string;
  exp_company : option string;
  exp_location : option string;
  exp_from : option string;
  exp_to : option string;
  exp_current : option string;
  exp_description : option string }.

Record Education := mkEducation {
  edu_id : string;
  edu_school : option string;
  edu_degree : option string;
  edu_fieldOfStudy : option string;
  edu_from : option string;
  edu_to : option string;
  edu_current : option string;
  edu_description : option string }.

(** Modelled from the spec: the Profile schema.  [profile_paths] holds the
    paths [user], [company], [website], [location], [bio], [status],
    [githubusername], [skills] and [social]. *)
Record Profile := mkProfile {
  profile_id : string;
  profile_paths : gmap string value;
  experience : list Experience;
  education : list Education }.

(** Modelled from the spec: other content of a user (posts), which no
    handler of these routes reads or writes. *)
Record Post := mkPost { post_user : string; post_text : string }.

Record Store := mkStore {
  users : list User;
  profiles : list Profile;
  posts : list Post;
  next_id : nat }.

(** The owner of a profile: its [user] path. *)
Definition profile_user (p : Profile) : option string :=
  match profile_paths p !! "user" with
  | Some (VStr u) => Some u
  | _ => None
  end.

(** ** Values sent in responses *)

(** The fields [populate("user", ["name", "avatar"])] joins in. *)
Record PublicUser := mkPublicUser {
  pub_id : string; pub_name : string; pub_avatar : string }.

Inductive jsval :=
| JUndefined
| JNull
| JString (s : string)
| JFunction (name : string)
| JArray (items : list jsval)
| JObject (props : list (string * jsval))
| JProfile (p : Profile)
| JPopulated (p : Profile) (owner : option PublicUser)
| JToken (t : Jwt).

(** [JSON.stringify], up to the rendering as text: a property whose value is
    [undefined] or a function is left out of its object, and such an element
    of an array becomes [null].  [None] is [undefined]. *)
Fixpoint serialize (v : jsval) : option jsval :=
  match v with
  | JUndefined => None
  | JFunction _ => None
  | JArray items =>
      Some (JArray ((fix elements (l : list jsval) : list jsval :=
                       match l with
                       | [] => []
                       | x :: rest =>
                           match serialize x with
                           | Some y => y :: elements rest
                           | None => JNull :: elements rest
                           end
                       end) items))
  | JObject props =>
      Some (JObject ((fix properties (l : list (string * jsval))
                        : list (string * jsval) :=
                        match l with
                        | [] => []
                        | (k, x) :: rest =>
                            match serialize x with
                            | Some y => (k, y) :: properties rest
                            | None => properties rest
                            end
                        end) props))
  | other => Some other
  end.

Inductive Body :=
| Json (v : option jsval)
| Text (s : string).

Record Response := mkResponse { status : nat; content : Body }.

(** [res.status(code).json(v)] *)
Definition res_json (code : nat) (v : jsval) : Response :=
  mkResponse code (Json (serialize v)).

(** [res.status(code).send(text)] *)
Definition res_send (code : nat) (text : string) : Response :=
  mkResponse code (Text text).

(** Property [k] of a serialized object. *)
Fixpoint assoc (k : string) (props : list (string * jsval)) : option jsval :=
  match props with
  | [] => None
  | (k', v) :: rest => if String.eqb k' k then Some v else assoc k rest
  end.

Definition body_property (k : string) (b : Body) : option jsval :=
  match b with
  | Json (Some (JObject props)) => assoc k props
  | _ => None
  end.

(** ** express-validator *)

Record ValidationError := mkValidationError {
  ve_value : option string;
  ve_msg : string;
  ve_param : string }.

(** The validators read a value through [toString]; [undefined] reads as
    the empty string. *)
Definition toString (v : option string) : string := default "" v.

(** [check(field, msg).not().isEmpty()] *)
Definition check_notEmpty (field msg : string) (body : gmap string string)
  : list ValidationError :=
  if String.eqb (toString (body !! field)) ""
  then [mkValidationError (body !! field) msg field] else [].

(** [check(field, msg).isEmail()] *)
Definition check_isEmail `{Packages} (field msg : string)
  (body : gmap string string) : list ValidationError :=
  if isEmail (toString (body !! field))
  then [] else [mkValidationError (body !! field) msg field].

(** [check(field, msg).isLength({ min })] *)
Definition check_isLength (field msg : string) (min : nat)
  (body : gmap string string) : list ValidationError :=
  if Nat.leb min (String.length (toString (body !! field)))
  then [] else [mkValidationError (body !! field) msg field].

(** One entry of [errors.array()]: [{ value, msg, param, location }]. *)
Definition error_object (e : ValidationError) : jsval :=
  JObject [("value", match ve_value e with
                     | Some s => JString s
                     | None => JUndefined
                     end);
           ("msg", JString (ve_msg e));
           ("param", JString (ve_param e));
           ("location", JString "body")].

(** [errors.isEmpty()] *)
Definition isEmpty (errors : list ValidationError) : bool :=
  match errors with [] => true | _ => false end.

(** [errors.array()]: the method, called. *)
Definition errors_array_call (errors : list ValidationError) : jsval :=
  JArray (map error_object errors).

(** [errors.array]: the method itself, not called. *)
Definition errors_array (errors : list ValidationError) : jsval :=
  JFunction "array".

(** A structured array of field/message pairs: a non-empty array of objects
    that each have a string [param] and a string [msg]. *)
Definition is_field_message (v : jsval) : bool :=
  match v with
  | JObject props =>
      match assoc "param" props, assoc "msg" props with
      | Some (JString _), Some (JString _) => true
      | _, _ => false
      end
  | _ => false
  end.

Definition is_error_array (v : option jsval) : bool :=
  match v with
  | Some (JArray (x :: rest)) => forallb is_field_message (x :: rest)
  | _ => false
  end.

(** ** The store: a state-and-exception monad *)

Inductive Error :=
| CastError (kind : string)
| TypeError (message : string).

(** [error.kind] *)
Definition error_kind (e : Error) : option string :=
  match e with
  | CastError k => Some k
  | TypeError _ => None
  end.

Definition M (A : Type) : Type := Store -> (Error + A) * Store.

Definition ret {A : Type} (a : A) : M A := fun st => (inr a, st).

Definition throw {A : Type} (e : Error) : M A := fun st => (inl e, st).

Definition bind {A B : Type} (m : M A) (k : A -> M B) : M B :=
  fun st =>
    match m st with
    | (inr a, st') => k a st'
    | (inl e, st') => (inl e, st')
    end.

(** [try { m } catch (error) { handler }] *)
Definition try_catch {A : Type} (m : M A) (handler : Error -> M A) : M A :=
  fun st =>
    match m st with
    | (inl e, st') => handler e st'
    | r => r
    end.

Notation "x <- m ;; k" := (bind m (fun x => k))
  (at level 100, m at next level, right associativity).
Notation "m ;; k" := (bind m (fun _ => k))
  (at level 100, right associativity).

(** *** mongoose *)

Section Mongoose.
Context `{Packages}.

(** An ObjectId is represented by a string that mongoose casts to it: a
    generated identifier by its hex string, a request's identifier by what
    the request sent.  Two strings are the same ObjectId when they are cast
    to the same one, whatever the case of their hex digits: conditions on
    ObjectId paths compare identifiers with [sameObjectId], never as
    strings. *)
Definition sameObjectId (a b : string) : bool :=
  String.eqb (objectIdString a) (objectIdString b).

(** A query condition on an ObjectId path casts its argument: a string that
    cannot be cast raises a CastError of kind ObjectId; one that can stands
    for the ObjectId it is cast to. *)
Definition castObjectId (id : string) : M string :=
  if isValidObjectId id then ret id else throw (CastError "ObjectId").

(** The identifier a new document or sub-document gets. *)
Definition freshObjectId : M string :=
  fun st =>
    (inr (newObjectId (next_id st)),
     mkStore (users st) (profiles st) (posts st) (S (next_id st))).

Definition owned_by (uid : string) (p : Profile) : bool :=
  match profile_user p with
  | Some u => sameObjectId u uid
  | None => false
  end.

Definition has_email (email : string) (u : User) : bool :=
  String.eqb (user_email u) email.

Definition has_id (id : string) (u : User) : bool :=
  sameObjectId (user_id u) id.

(** The list without its first element satisfying [f]. *)
Fixpoint remove_first {A : Type} (f : A -> bool) (l : list A) : list A :=
  match l with
  | [] => []
  | x :: rest => if f x then rest else x :: remove_first f rest
  end.

(** The list with its first element satisfying [f] replaced by [g] of it. *)
Fixpoint update_first {A : Type} (f : A -> bool) (g : A -> A) (l : list A)
  : list A :=
  match l with
  | [] => []
  | x :: rest => if f x then g x :: rest else x :: update_first f g rest
  end.

(** [User.findOne({ email })] *)
Definition User_findOne (email : string) : M (option User) :=
  fun st => (inr (find (has_email email) (users st)), st).

(** [user.save()] of a new document *)
Definition User_save (u : User) : M unit :=
  fun st =>
    (inr tt, mkStore (users st ++ [u]) (profiles st) (posts st) (next_id st)).

(** [User.findOneAndRemove({ _id })] *)
Definition User_findOneAndRemove (id : string) : M unit :=
  id' <- castObjectId id ;;
  fun st =>
    (inr tt,
     mkStore (remove_first (has_id id') (users st)) (profiles st) (posts st)
       (next_id st)).

(** [Profile.findOne({ user })] *)
Definition Profile_findOne (uid : string) : M (option Profile) :=
  uid' <- castObjectId uid ;;
  fun st => (inr (find (owned_by uid') (profiles st)), st).

(** [$set]: every path of the update document replaces that path of the
    stored document; the other paths are left as they are. *)
Definition apply_set (update : gmap string value) (p : Profile) : Profile :=
  mkProfile (profile_id p) (update ∪ profile_paths p) (experience p)
    (education p).

(** [Profile.findOneAndUpdate({ user }, { $set: update }, { new: true })] *)
Definition Profile_findOneAndUpdate (uid : string) (update : gmap string value)
  : M (option Profile) :=
  uid' <- castObjectId uid ;;
  fun st =>
    (inr (apply_set update <$> find (owned_by uid') (profiles st)),
     mkStore (users st)
       (update_first (owned_by uid') (apply_set update) (profiles st))
       (posts st) (next_id st)).

(** [Profile.findOneAndRemove({ user })] *)
Definition Profile_findOneAndRemove (uid : string) : M unit :=
  uid' <- castObjectId uid ;;
  fun st =>
    (inr tt,
     mkStore (users st) (remove_first (owned_by uid') (profiles st)) (posts st)
       (next_id st)).

Definition same_id (p q : Profile) : bool :=
  String.eqb (profile_id q) (profile_id p).

(** [profile.save()]: the stored document with this identifier is replaced;
    a new document is added. *)
Definition Profile_save (p : Profile) : M unit :=
  fun st =>
    (inr tt,
     mkStore (users st)
       (if existsb (same_id p) (profiles st)
        then update_first (same_id p) (fun _ => p) (profiles st)
        else profiles st ++ [p])
       (posts st) (next_id st)).

(** [new Profile(fields)] *)
Definition new_Profile (fields : gmap string value) : M Profile :=
  id <- freshObjectId ;;
  ret (mkProfile id fields [] []).

(** [.populate("user", ["name", "avatar"])] *)
Definition populate (p : Profile) : M jsval :=
  fun st =>
    (inr (JPopulated p
            (match profile_user p with
             | Some uid =>
                 (fun u => mkPublicUser (user_id u) (user_name u)
                             (user_avatar u))
                   <$> find (has_id uid) (users st)
             | None => None
             end)),
     st).

End Mongoose.

(** ** bcrypt and jsonwebtoken *)

Section Crypto.
Context `{Packages}.

Definition digit (n : nat) : ascii := ascii_of_nat (48 + n).

Definition two_digits (n : nat) : string :=
  String (digit (n / 10)) (String (digit (n mod 10)) EmptyString).

(** [bcrypt.genSalt(rounds)]: version, cost and 22 characters drawn at
    random ([entropy]). *)
Definition bcrypt_genSalt (rounds : nat) (entropy : string) : string :=
  "$2b$" +:+ two_digits rounds +:+ "$" +:+ entropy.

(** [bcrypt.hash(data, salt)]: the salt string followed by the digest. *)
Definition bcrypt_hash (data salt : string) : string :=
  salt +:+ bcrypt_digest salt data.


(** [jwt.sign({ user }, secret, { expiresIn })] at time [now] (seconds). *)
Definition jwt_sign (user : option AuthUser) (secret : string)
  (expiresIn now : Z) : Jwt :=
  let claims := mkClaims user now (now + expiresIn) in
  mkJwt claims (hmac secret claims).

Inductive JwtError :=
| JsonWebTokenError (message : string)
| TokenExpiredError.

(** [jwt.verify(token, secret)] at time [now]: the signature, then the
    expiry. *)
Definition jwt_verify (token : Jwt) (secret : string) (now : Z)
  : JwtError + Claims :=
  if negb (String.eqb (jwt_signature token) (hmac secret (jwt_claims token)))
  then inl (JsonWebTokenError "invalid signature")
  else if claim_exp (jwt_claims token) <=? now
       then inl TokenExpiredError
       else inr (jwt_claims token).

End Crypto.

(** ** server/middleware/auth.js *)

Section Handlers.
Context `{Packages}.

(** The process configuration: [config.get("jwtSecret")]. *)
Variable jwtSecret : string.

Inductive Outcome :=
| Next (req_user : option AuthUser)
| Respond (r : Response).

Definition msg (text : string) : jsval := JObject [("msg", JString text)].

(** The middleware, on the value of the [x-auth-token] header at time
    [now]. *)
Definition auth (now : Z) (token : option Jwt) : Outcome :=
  match token with
  | None => Respond (res_json 401 (msg "No token, authorization denied"))
  | Some token =>
      match jwt_verify token jwtSecret now with
      | inr decoded => Next (claim_user decoded)
      | inl _ => Respond (res_json 401 (msg "Token is not valid"))
      end
  end.

(** ** POST users: register *)

Definition register_checks (body : gmap string string)
  : list ValidationError :=
  check_notEmpty "name" "Name is required" body
  ++ check_isEmail "email" "please include valid email" body
  ++ check_isLength "password"
       "please enter a password with 6 or more charaters" 6 body.

Definition user_exists : jsval :=
  JObject [("errors", JArray [msg "User already exists"])].

(** [entropy] is what [genSalt] draws; [now] is the clock in seconds. *)
Definition post_users (entropy : string) (now : Z)
  (body : gmap string string) : M Response :=
  let errors := register_checks body in
  if negb (isEmpty errors)
  then ret (res_json 400 (JObject [("errors", errors_array_call errors)]))
  else
    let name := toString (body !! "name") in
    let email := toString (body !! "email") in
    let password := toString (body !! "password") in
    try_catch
      (user <- User_findOne email ;;
       match user with
       | Some _ => ret (res_json 400 user_exists)
       | None =>
           let avatar := gravatar_url email in
           id <- freshObjectId ;;
           let user := mkUser id name email avatar password in
           let salt := bcrypt_genSalt 10 entropy in
           let user :=
             mkUser (user_id user) (user_name user) (user_email user)
               (user_avatar user) (bcrypt_hash password salt) in
           User_save user ;;
           let payload := Some (mkAuthUser (user_id user)) in
           let token := jwt_sign payload jwtSecret 360000 now in
           ret (res_json 200 (JObject [("token", JToken token)]))
       end)
      (fun error => ret (res_send 500 "Server error")).

(** ** server/routes/profile.js *)

(** [if (v) o[k] = f(v)] *)
Definition set_if_truthy {V : Type} (k : string) (v : option string)
  (f : string -> V) (o : gmap string V) : gmap string V :=
  match v with
  | Some s => if JS.truthy v then <[k := f s]> o else o
  | None => o
  end.

Definition profile_checks (body : gmap string string)
  : list ValidationError :=
  check_notEmpty "status" "Status is required" body
  ++ check_notEmpty "skills" "Skills are required" body.

(** [profileFields.social] *)
Definition socialFields (body : gmap string string) : gmap string string :=
  let social := ∅ in
  let social := set_if_truthy "youtube" (body !! "youtube") id social in
  let social := set_if_truthy "twitter" (body !! "twitter") id social in
  let social := set_if_truthy "facebook" (body !! "facebook") id social in
  let social := set_if_truthy "linkedin" (body !! "linkedin") id social in
  let social := set_if_truthy "instagram" (body !! "instagram") id social in
  social.

(** [skills.split(",").map((skill) => skill.trim())] *)
Definition skills_of (skills : string) : list string :=
  map JS.trim (JS.split "," skills).

Definition profileFields (user : AuthUser) (body : gmap string string)
  : gmap string value :=
  let pf := ∅ in
  let pf := <["user" := VStr (auth_id user)]> pf in
  let pf := set_if_truthy "company" (body !! "company") VStr pf in
  let pf := set_if_truthy "website" (body !! "website") VStr pf in
  let pf := set_if_truthy "location" (body !! "location") VStr pf in
  let pf := set_if_truthy "bio" (body !! "bio") VStr pf in
  let pf := set_if_truthy "status" (body !! "status") VStr pf in
  let pf :=
    set_if_truthy "githubusername" (body !! "githubusername") VStr pf in
  let pf :=
    set_if_truthy "skills" (body !! "skills")
      (fun skills => VList (skills_of skills)) pf in
  let pf := <["social" := VObj (socialFields body)]> pf in
  pf.

Definition json_of_profile (p : option Profile) : jsval :=
  match p with
  | Some p => JProfile p
  | None => JNull
  end.

(** POST api/profile: create or update the caller's profile. *)
Definition post_profile (user : AuthUser) (body : gmap string string)
  : M Response :=
  let errors := profile_checks body in
  if negb (isEmpty errors)
  then ret (res_json 400 (JObject [("errors", errors_array_call errors)]))
  else
    let profileFields := profileFields user body in
    try_catch
      (profile <- Profile_findOne (auth_id user) ;;
       match profile with
       | Some _ =>
           profile <- Profile_findOneAndUpdate (auth_id user) profileFields ;;
           ret (res_json 200 (json_of_profile profile))
       | None =>
           profile <- new_Profile profileFields ;;
           Profile_save profile ;;
           ret (res_json 200 (JProfile profile))
       end)
      (fun error => ret (res_send 500 "Server Error")).

(** [error.kind === "ObjectId"] *)
Definition is_ObjectId_error (error : Error) : bool :=
  match error_kind error with
  | Some k => String.eqb k "ObjectId"
  | None => false
  end.

(** GET api/profile/user/:user_id *)
Definition get_profile_user (user_id : string) : M Response :=
  try_catch
    (profile <- Profile_findOne user_id ;;
     match profile with
     | None => ret (res_json 400 (msg "Profile Not Found"))
     | Some p =>
         profile <- populate p ;;
         ret (res_json 200 profile)
     end)
    (fun error =>
       if is_ObjectId_error error
       then ret (res_json 400 (msg "Profile Not Found"))
       else ret (res_send 500 "Server Error")).

(** DELETE api/profile: remove the caller's profile and user. *)
Definition delete_profile (user : AuthUser) : M Response :=
  try_catch
    (Profile_findOneAndRemove (auth_id user) ;;
     User_findOneAndRemove (auth_id user) ;;
     ret (res_json 200 (msg "User Deleted")))
    (fun error =>
       if is_ObjectId_error error
       then ret (res_json 400 (msg "Profile Not Found"))
       else ret (res_send 500 "Server Error")).

(** Reading a property of [null]. *)
Definition of_null {A : Type} (property : string) : M A :=
  throw (TypeError ("Cannot read property '" +:+ property +:+ "' of null")).

Definition experience_checks (body : gmap string string)
  : list ValidationError :=
  check_notEmpty "title" "title is required" body
  ++ check_notEmpty "company" "company is required" body
  ++ check_notEmpty "from" "From date is required" body.

(** [newExp], with the identifier the sub-document gets in the array. *)
Definition newExp (id : string) (body : gmap string string) : Experience :=
  mkExperience id (body !! "title") (body !! "company") (body !! "location")
    (body !! "from") (body !! "to") (body !! "current")
    (body !! "description").

Definition with_experience (p : Profile) (l : list Experience) : Profile :=
  mkProfile (profile_id p) (profile_paths p) l (education p).

Definition with_education (p : Profile) (l : list Education) : Profile :=
  mkProfile (profile_id p) (profile_paths p) (experience p) l.

(** PUT api/profile/experience *)
Definition put_experience (user : AuthUser) (body : gmap string string)
  : M Response :=
  let errors := experience_checks body in
  if negb (isEmpty errors)
  then ret (res_json 400 (JObject [("errors", errors_array errors)]))
  else
    try_catch
      (profile <- Profile_findOne (auth_id user) ;;
       match profile with
       | None => of_null "experience"
       | Some profile =>
           id <- freshObjectId ;;
           let profile :=
             with_experience profile
               (JS.unshift (experience profile) (newExp id body)) in
           Profile_save profile ;;
           ret (res_json 200 (JProfile profile))
       end)
      (fun error => ret (res_send 500 "Server Error")).

(** DELETE api/profile/experience/:exp_id *)
Definition delete_experience (user : AuthUser) (exp_id_param : string)
  : M Response :=
  try_catch
    (profile <- Profile_findOne (auth_id user) ;;
     match profile with
     | None => of_null "experience"
     | Some profile =>
         let removeIndex :=
           JS.indexOf (map exp_id (experience profile)) exp_id_param in
         let profile :=
           with_experience profile
             (JS.splice (experience profile) removeIndex 1) in
         Profile_save profile ;;
         ret (res_json 200 (JProfile profile))
     end)
    (fun error => ret (res_send 500 "Server Error")).

Definition education_checks (body : gmap string string)
  : list ValidationError :=
  check_notEmpty "school" "school is required" body
  ++ check_notEmpty "degree" "degree is required" body
  ++ check_notEmpty "from" "From date is required" body
  ++ check_notEmpty "fieldOfStudy" "fieldOfStudy" body.

Definition newEdu (id : string) (body : gmap string string) : Education :=
  mkEducation id (body !! "school") (body !! "degree")
    (body !! "fieldOfStudy") (body !! "from") (body !! "to")
    (body !! "current") (body !! "description").

(** PUT api/profile/education *)
Definition put_education (user : AuthUser) (body : gmap string string)
  : M Response :=
  let errors := education_checks body in
  if negb (isEmpty errors)
  then ret (res_json 400 (JObject [("errors", errors_array errors)]))
  else
    try_catch
      (profile <- Profile_findOne (auth_id user) ;;
       match profile with
       | None => of_null "education"
       | Some profile =>
           id <- freshObjectId ;;
           let profile :=
             with_education profile
               (JS.unshift (education profile) (newEdu id body)) in
           Profile_save profile ;;
           ret (res_json 200 (JProfile profile))
       end)
      (fun error => ret (res_send 500 "Server Error")).

(** DELETE api/profile/education/:edu_id *)
Definition delete_education (user : AuthUser) (edu_id_param : string)
  : M Response :=
  try_catch
    (profile <- Profile_findOne (auth_id user) ;;
     match profile with
     | None => of_null "education"
     | Some profile =>
         let removeIndex :=
           JS.indexOf (map edu_id (education profile)) edu_id_param in
         let profile :=
           with_education profile
             (JS.splice (education profile) removeIndex 1) in
         Profile_save profile ;;
         ret (res_json 200 (JProfile profile))
     end)
    (fun error => ret (res_send 500 "Server Error")).

(** GET api/profile/me *)
Definition get_me (user : AuthUser) : M Response :=
  try_catch
    (profile <- Profile_findOne (auth_id user) ;;
     match profile with
     | None => ret (res_json 400 (msg "There is no profile for this user"))
     | Some p =>
         profile <- populate p ;;
         ret (res_json 200 profile)
     end)
    (fun error => ret (res_send 500 "Server Error")).

(** [Profile.find()] *)
Definition Profile_find : M (list Profile) :=
  fun st => (inr (profiles st), st).

(** [populate] on every document of a query result. *)
Fixpoint populate_all (l : list Profile) : M (list jsval) :=
  match l with
  | [] => ret []
  | p :: rest =>
      d <- populate p ;;
      ds <- populate_all rest ;;
      ret (d :: ds)
  end.

(** GET api/profile: all profiles. *)
Definition get_profiles : M Response :=
  try_catch
    (found <- Profile_find ;;
     profiles <- populate_all found ;;
     ret (res_json 200 (JArray profiles)))
    (fun error => ret (res_send 500 "Server Error")).

(** POST users of the stub route: the checks of registration, then a fixed
    text. *)
Definition post_users_stub (body : gmap string string) : M Response :=
  let errors := register_checks body in
  if negb (isEmpty errors)
  then ret (res_json 400 (JObject [("errors", errors_array_call errors)]))
  else ret (res_send 200 "User Route").

(** GET auth: the test route. *)
Definition get_auth : M Response := ret (res_send 200 "Auth Route").

(** The requests the routes serve; a protected route is entered with the
    identity the middleware attached. *)
Inductive Request :=
| PostUsers (entropy : string) (now : Z) (body : gmap string string)
| PostUsersStub (body : gmap string string)
| GetAuth
| GetMe (user : AuthUser)
| PostProfile (user : AuthUser) (body : gmap string string)
| GetProfiles
| GetProfileUser (user_id : string)
| DeleteProfile (user : AuthUser)
| PutExperience (user : AuthUser) (body : gmap string string)
| DeleteExperience (user : AuthUser) (exp_id_param : string)
| PutEducation (user : AuthUser) (body : gmap string string)
| DeleteEducation (user : AuthUser) (edu_id_param : string).

(** The router, for requests served one at a time: each request goes to its
    handler, which runs to its answer before another request starts.  Two
    handlers interleaving at their [await]s are not modelled. *)
Definition handle (r : Request) : M Response :=
  match r with
  | PostUsers entropy now body => post_users entropy now body
  | PostUsersStub body => post_users_stub body
  | GetAuth => get_auth
  | GetMe user => get_me user
  | PostProfile user body => post_profile user body
  | GetProfiles => get_profiles
  | GetProfileUser user_id => get_profile_user user_id
  | DeleteProfile user => delete_profile user
  | PutExperience user body => put_experience user body
  | DeleteExperience user id => delete_experience user id
  | PutEducation user body => put_education user body
  | DeleteEducation user id => delete_education user id
  end.


End Handlers.

(** ** Predicates used in the statements *)

(** Every character of [s] is white space. *)
Fixpoint all_white (s : string) : bool :=
  match s with
  | EmptyString => true
  | String c rest => JS.isWhiteSpace c && all_white rest
  end.

Definition starts_white (s : string) : bool :=
  match s with
  | EmptyString => false
  | String c _ => JS.isWhiteSpace c
  end.

Fixpoint ends_white (s : string) : bool :=
  match s with
  | EmptyString => false
  | String c EmptyString => JS.isWhiteSpace c
  | String _ rest => ends_white rest
  end.

Fixpoint contains (c : ascii) (s : string) : bool :=
  match s with
  | EmptyString => false
  | String d rest => Ascii.eqb d c || contains c rest
  end.

(** [t] is [piece] without its leading and trailing white space. *)
Definition trimmed_of (piece t : string) : Prop :=
  exists l r : string,
    piece = l +:+ t +:+ r /\ all_white l = true /\ all_white r = true
    /\ starts_white t = false /\ ends_white t = false.

(** [id] is one of the first [n] identifiers the driver generated. *)
Definition generated `{Packages} (n : nat) (id : string) : Prop :=
  exists k : nat, (k < n)%nat /\ id = newObjectId k.

(** The owner of a profile as an ObjectId: the hex string its [user] path
    is cast to. *)
Definition profile_owner `{Packages} (p : Profile) : option string :=
  match profile_user p with
  | Some u => Some (objectIdString u)
  | None => None
  end.

(** A store as the handlers leave it when they run one at a time: profile
    identifiers are generated and pairwise distinct, no two profiles have
    the same owner, and no two users have the same email. *)
Record store_ok `{Packages} (st : Store) : Prop := mk_store_ok {
  ok_profile_ids : List.NoDup (map profile_id (profiles st));
  ok_generated :
    List.Forall (fun p => generated (next_id st) (profile_id p))
      (profiles st);
  ok_owners : List.NoDup (map profile_owner (profiles st));
  ok_emails : List.NoDup (map user_email (users st)) }.

(** The owner's public fields, as [populate] joins them in. *)
Definition public_owner `{Packages} (st : Store) (p : Profile)
  : option PublicUser :=
  match profile_user p with
  | Some uid =>
      match find (has_id uid) (users st) with
      | Some u => Some (mkPublicUser (user_id u) (user_name u) (user_avatar u))
      | None => None
      end
  | None => None
  end.


(** The social links a request may supply. *)
Definition social_links : list string :=
  ["youtube"; "twitter"; "facebook"; "linkedin"; "instagram"].


(** ** A concrete instance of the packages, for running the handlers *)

Module Demo.

Definition hex_digit (n : nat) : ascii :=
  if Nat.ltb n 10 then ascii_of_nat (48 + n) else ascii_of_nat (87 + n).

Fixpoint hex (width n : nat) : string :=
  match width with
  | O => EmptyString
  | S w => hex w (n / 16) +:+ String (hex_digit (n mod 16)) EmptyString
  end.

Definition is_hex_digit (c : ascii) : bool :=
  let n := nat_of_ascii c in
  (Nat.leb 48 n && Nat.leb n 57) || (Nat.leb 97 n && Nat.leb n 102)
  || (Nat.leb 65 n && Nat.leb n 70).

Fixpoint all_hex (s : string) : bool :=
  match s with
  | EmptyString => true
  | String c rest => is_hex_digit c && all_hex rest
  end.

Definition lower (c : ascii) : ascii :=
  let n := nat_of_ascii c in
  if Nat.leb 65 n && Nat.leb n 90 then ascii_of_nat (n + 32) else c.

Fixpoint lowercase (s : string) : string :=
  match s with
  | EmptyString => EmptyString
  | String c rest => String (lower c) (lowercase rest)
  end.

(** The hex string of the bytes of [s], two digits a byte. *)
Fixpoint hex_bytes (s : string) : string :=
  match s with
  | EmptyString => EmptyString
  | String c rest => hex 2 (nat_of_ascii c) +:+ hex_bytes rest
  end.

#[local] Instance packages : Packages := {|
  isEmail s := contains "@" s;
  gravatar_url email := "//www.gravatar.com/avatar/" +:+ email +:+ "?s=200&r=pg&d=mm";
  bcrypt_digest salt data := data +:+ ".";
  hmac secret claims :=
    secret +:+ ":" +:+ default "" (auth_id <$> claim_user claims);
  isValidObjectId s :=
    (Nat.eqb (String.length s) 24 && all_hex s)
    || Nat.eqb (String.length s) 12;
  objectIdString s :=
    if Nat.eqb (String.length s) 12 then hex_bytes s else lowercase s;
  newObjectId n := hex 24 n |}.


Definition secret : string := "s3cret".

Definition alice : AuthUser := mkAuthUser "0000000000000000000000a1".

Definition job1 : Experience :=
  mkExperience "0000000000000000000000e1" (Some "Engineer") (Some "Acme")
    None (Some "2019-01-01") None None None.

Definition job2 : Experience :=
  mkExperience "0000000000000000000000e2" (Some "Intern") (Some "Initech")
    None (Some "2017-06-01") (Some "2018-06-01") None None.

Definition school1 : Education :=
  mkEducation "0000000000000000000000d1" (Some "MIT") (Some "BSc")
    (Some "CS") (Some "2013-09-01") None None None.

Definition school2 : Education :=
  mkEducation "0000000000000000000000d2" (Some "ETH") (Some "MSc")
    (Some "Maths") (Some "2016-09-01") None None None.

Definition alice_paths : gmap string value :=
  <["social" := VObj (<["youtube" := "https://youtube.com/alice"]> ∅)]>
    (<["company" := VStr "Acme"]>
       (<["skills" := VList ["js"]]>
          (<["status" := VStr "Developer"]>
             (<["user" := VStr (auth_id alice)]> ∅)))).

Definition alice_profile : Profile :=
  mkProfile "0000000000000000000000f1" alice_paths [job1; job2]
    [school1; school2].

Definition alice_user : User :=
  mkUser (auth_id alice) "Alice" "alice@example.com"
    (gravatar_url "alice@example.com") "$2b$10$abcdefghijklmnopqrstuvhash".

Definition store : Store :=
  mkStore [alice_user] [alice_profile] [mkPost (auth_id alice) "hello"] 7.

(** A store with no profile for alice. *)
Definition store_no_profile : Store :=
  mkStore [alice_user] [] [mkPost (auth_id alice) "hello"] 7.

Definition body_of (l : list (string * string)) : gmap string string :=
  list_to_map l.

(** The identifier of alice with an upper-case hex digit. *)
Definition alice_upper_case : string := "0000000000000000000000A1".

(** An identifier that no entry of [alice_profile] has. *)
Definition unknown_id : string := "0000000000000000000000ff".

(** What [genSalt] draws: 22 characters. *)
Definition entropy : string := "abcdefghijklmnopqrstuv".

Definition register_bob : gmap string string :=
  body_of [("name", "Bob"); ("email", "bob@example.com");
           ("password", "hunter22")].


Definition register_alice_again : gmap string string :=
  body_of [("name", "Alice"); ("email", "alice@example.com");
           ("password", "secret1")].

Definition duplicate_without_name : gmap string string :=
  body_of [("name", ""); ("email", "alice@example.com");
           ("password", "secret1")].

Definition partial_update : gmap string string :=
  body_of [("status", "Senior developer"); ("skills", "js, rocq")].

Definition with_skills : gmap string string :=
  body_of [("status", "Developer"); ("skills", "node, react , css")].

Definition new_job : gmap string string :=
  body_of [("title", "Lead"); ("company", "Globex"); ("from", "2021-01-01")].

Definition new_school : gmap string string :=
  body_of [("school", "EPFL"); ("degree", "PhD"); ("from", "2018-09-01");
           ("fieldOfStudy", "Logic")].

Definition empty_store : Store := mkStore [] [] [] 0.

(** A store whose identifiers the generator gave: bob (identifier 0) owns
    the profile with identifier 1, which has one experience entry. *)
Definition bob : AuthUser := mkAuthUser (newObjectId 0).

Definition bob_user : User :=
  mkUser (auth_id bob) "Bob" "bob@example.com"
    (gravatar_url "bob@example.com") "$2b$10$abcdefghijklmnopqrstuvhunter22.".

Definition bob_job : Experience :=
  mkExperience (newObjectId 2) (Some "Engineer") (Some "Acme") None
    (Some "2019-01-01") None None None.

Definition bob_school : Education :=
  mkEducation (newObjectId 3) (Some "MIT") (Some "BSc") (Some "CS")
    (Some "2013-09-01") None None None.

Definition bob_profile : Profile :=
  mkProfile (newObjectId 1)
    (<["social" := VObj (<["twitter" := "https://twitter.com/bob"]> ∅)]>
       (<["company" := VStr "Acme"]>
          (<["skills" := VList ["js"]]>
             (<["status" := VStr "Developer"]>
                (<["user" := VStr (auth_id bob)]> ∅)))))
    [bob_job] [bob_school].

Definition bob_store : Store := mkStore [bob_user] [bob_profile] [] 4.

Definition register_carol : gmap string string :=
  body_of [("name", "Carol"); ("email", "carol@example.com");
           ("password", "opensesame")].

Definition invalid_registration : gmap string string :=
  body_of [("name", "Dan"); ("email", "dan.example.com");
           ("password", "12345")].

Definition invalid_user : AuthUser := mkAuthUser "not-an-id".

Definition update_company : gmap string string :=
  body_of [("status", "Architect"); ("skills", "js, rocq");
           ("company", "Globex"); ("linkedin", "https://linkedin.com/in/bob")].


End Demo.

(** * Properties *)

(** ** JavaScript primitives *)

Example split_keeps_empty_pieces :
  JS.split "," "a,,b," = ["a"; ""; "b"; ""].
Proof. reflexivity. Qed.

Example split_of_empty : JS.split "," "" = [""].
Proof. reflexivity. Qed.

Example trim_keeps_inner_space : JS.trim "  node js  " = "node js".
Proof. reflexivity. Qed.

Example indexOf_examples :
  JS.indexOf ["a"; "b"; "a"] "a" = 0
  /\ JS.indexOf ["a"; "b"; "a"] "b" = 1
  /\ JS.indexOf ["a"; "b"; "a"] "c" = -1.
Proof. repeat split. Qed.

Example splice_examples :
  JS.splice [1; 2; 3] 1 1 = [1; 3]
  /\ JS.splice [1; 2; 3] (-1) 1 = [1; 2]
  /\ JS.splice [1; 2; 3] 5 1 = [1; 2; 3]
  /\ JS.splice ([] : list Z) (-1) 1 = [].
Proof. repeat split. Qed.

Example serialize_drops_functions :
  serialize (JObject [("errors", JFunction "array"); ("n", JNull)])
  = Some (JObject [("n", JNull)])
  /\ serialize (JArray [JFunction "f"; JString "x"])
     = Some (JArray [JNull; JString "x"]).
Proof. split; reflexivity. Qed.


Lemma split_cons sep s : exists p ps, JS.split sep s = p :: ps.
Proof.
  destruct s as [|c s]; simpl; [eauto|].
  destruct (Ascii.eqb c sep); [eauto|].
  destruct (JS.split sep s); eauto.
Qed.

Lemma join_cons sep a b l :
  JS.join sep (a :: b :: l) = a +:+ String sep (JS.join sep (b :: l)).
Proof. reflexivity. Qed.

Lemma join_split sep s : JS.join sep (JS.split sep s) = s.
Proof.
  induction s as [|c s IH]; [reflexivity|].
  cbn [JS.split]. destruct (split_cons sep s) as (p & ps & E).
  rewrite E in *. destruct (Ascii.eqb_spec c sep) as [->|Hne].
  - rewrite join_cons, IH. reflexivity.
  - destruct ps as [|q ps].
    + cbn [JS.join] in *. now rewrite IH.
    + rewrite join_cons in IH. rewrite join_cons, <- IH. reflexivity.
Qed.

Lemma split_no_separator sep s :
  Forall (fun p => contains sep p = false) (JS.split sep s).
Proof.
  induction s as [|c s IH]; simpl.
  - repeat constructor.
  - destruct (Ascii.eqb_spec c sep) as [->|Hne].
    + constructor; [reflexivity|exact IH].
    + destruct (JS.split sep s) as [|p ps].
      * constructor; [|constructor]. simpl.
        destruct (Ascii.eqb_spec c sep); [contradiction|reflexivity].
      * inversion IH; subst. constructor; [|assumption]. simpl.
        destruct (Ascii.eqb_spec c sep); [contradiction|assumption].
Qed.

Lemma trimStart_spec s :
  exists l, s = l +:+ JS.trimStart s /\ all_white l = true
            /\ starts_white (JS.trimStart s) = false.
Proof.
  induction s as [|c s (l & E & Hl & Hs)].
  - exists EmptyString. repeat split.
  - simpl. destruct (JS.isWhiteSpace c) eqn:Hc.
    + exists (String c l). split; [|split].
      * exact (f_equal (String c) E).
      * cbn [all_white]. now rewrite Hc, Hl.
      * exact Hs.
    + exists EmptyString. split; [|split]; [reflexivity..|].
      cbn [starts_white]. exact Hc.
Qed.

Lemma trimEnd_empty s : JS.trimEnd s = EmptyString -> all_white s = true.
Proof.
  induction s as [|c s IH]; [reflexivity|].
  simpl. destruct (JS.trimEnd s) eqn:E.
  - destruct (JS.isWhiteSpace c); [|discriminate]. intros _. now rewrite IH.
  - discriminate.
Qed.

Lemma trimEnd_spec s :
  exists r, s = JS.trimEnd s +:+ r /\ all_white r = true
            /\ ends_white (JS.trimEnd s) = false.
Proof.
  induction s as [|c s (r & E & Hr & Hs)].
  - exists EmptyString. repeat split.
  - simpl. destruct (JS.trimEnd s) as [|d t] eqn:Et.
    + destruct (JS.isWhiteSpace c) eqn:Hc.
      * exists (String c s). split; [|split]; [reflexivity| |reflexivity].
        cbn [all_white]. now rewrite Hc, (trimEnd_empty s Et).
      * exists r. split; [|split]; [|exact Hr|].
        -- exact (f_equal (String c) E).
        -- cbn [ends_white]. exact Hc.
    + exists r. split; [|split; [exact Hr|]].
      * exact (f_equal (String c) E).
      * exact Hs.
Qed.

Lemma trimEnd_starts s :
  starts_white s = false -> starts_white (JS.trimEnd s) = false.
Proof.
  destruct s as [|c s]; [reflexivity|]. simpl. intros Hc.
  destruct (JS.trimEnd s); [rewrite Hc|]; simpl; auto.
Qed.

(** [trim] removes exactly the white space around its argument. *)
Lemma trim_spec s : trimmed_of s (JS.trim s).
Proof.
  unfold JS.trim, trimmed_of.
  destruct (trimStart_spec s) as (l & El & Hl & Hs).
  destruct (trimEnd_spec (JS.trimStart s)) as (r & Er & Hr & He).
  exists l, r. repeat split; auto.
  - rewrite <- Er. exact El.
  - now apply trimEnd_starts.
Qed.

Lemma map_trim_spec l : Forall2 trimmed_of l (map JS.trim l).
Proof.
  induction l; simpl; constructor; auto using trim_spec.
Qed.

Lemma indexOf_range l x : -1 <= JS.indexOf l x < Z.of_nat (length l).
Proof.
  induction l as [|y l IH]; simpl; [lia|].
  destruct (String.eqb y x); [lia|].
  destruct (Z.ltb_spec (JS.indexOf l x) 0); lia.
Qed.

(** [indexOf] is [-1] exactly when nothing matches. *)
Lemma indexOf_missing l x : ~ In x l -> JS.indexOf l x = -1.
Proof.
  induction l as [|y l IH]; simpl; [reflexivity|]. intros Hn.
  destruct (String.eqb_spec y x) as [->|Hne]; [tauto|].
  rewrite IH by tauto. reflexivity.
Qed.

(** [indexOf] is the position of the first match. *)
Lemma indexOf_first l1 x l2 :
  ~ In x l1 -> JS.indexOf (l1 ++ x :: l2) x = Z.of_nat (length l1).
Proof.
  induction l1 as [|y l1 IH]; simpl; intros Hn.
  - now rewrite String.eqb_refl.
  - destruct (String.eqb_spec y x) as [->|Hne]; [tauto|].
    rewrite IH by tauto.
    destruct (Z.ltb_spec (Z.of_nat (length l1)) 0); lia.
Qed.

(** Removing one element at a position inside the array. *)
Lemma splice_inside {A : Type} (l1 : list A) (x : A) (l2 : list A) :
  JS.splice (l1 ++ x :: l2) (Z.of_nat (length l1)) 1 = l1 ++ l2.
Proof.
  unfold JS.splice. rewrite length_app. simpl length.
  destruct (Z.ltb_spec (Z.of_nat (length l1)) 0); [lia|].
  rewrite Z.min_l by lia.
  replace (Z.min (Z.max 1 0) _) with 1 by lia.
  rewrite Nat2Z.id.
  replace (Z.to_nat (Z.of_nat (length l1) + 1)) with (S (length l1)) by lia.
  rewrite take_app_length.
  change (l1 ++ x :: l2) with (l1 ++ [x] ++ l2).
  rewrite app_assoc.
  replace (S (length l1)) with (length (l1 ++ [x]))
    by (rewrite length_app; simpl; lia).
  now rewrite drop_app_length.
Qed.

(** [splice(-1, 1)] removes the last element. *)
Lemma splice_minus_one {A : Type} (l : list A) :
  JS.splice l (-1) 1 = removelast l.
Proof.
  induction l as [|y l _] using rev_ind; [reflexivity|].
  rewrite removelast_last. unfold JS.splice.
  rewrite length_app. simpl length.
  change (-1 <? 0) with true. cbv iota.
  replace (Z.max _ 0) with (Z.of_nat (length l)) by lia.
  replace (Z.min (Z.max 1 0) _) with 1 by lia.
  rewrite Nat2Z.id.
  replace (Z.to_nat (Z.of_nat (length l) + 1)) with (length (l ++ [y]))
    by (rewrite length_app; simpl; lia).
  rewrite take_app_length, drop_all. apply app_nil_r.
Qed.

(** ** Removing a sub-document by identifier *)

(** When an entry matches, [splice] at [indexOf] removes the first such entry
    and keeps the others in order. *)
Lemma remove_matching {A : Type} (key : A -> string) l1 e l2 :
  ~ In (key e) (map key l1) ->
  JS.splice (l1 ++ e :: l2) (JS.indexOf (map key (l1 ++ e :: l2)) (key e)) 1
  = l1 ++ l2.
Proof.
  intros Hn. rewrite map_app. simpl map.
  rewrite indexOf_first by exact Hn.
  rewrite length_map. apply splice_inside.
Qed.

(** When no entry matches, [indexOf] is [-1] and [splice] removes the last
    entry. *)
Lemma remove_missing {A : Type} (key : A -> string) l x :
  ~ In x (map key l) ->
  JS.splice l (JS.indexOf (map key l) x) 1 = removelast l.
Proof.
  intros Hn. rewrite indexOf_missing by exact Hn. apply splice_minus_one.
Qed.

(** ** The store *)

Lemma find_In {A : Type} (f : A -> bool) l x :
  find f l = Some x -> In x l /\ f x = true.
Proof.
  induction l as [|y l IH]; simpl; [discriminate|].
  destruct (f y) eqn:E.
  - intros [= ->]. auto.
  - intros Hx. destruct (IH Hx). auto.
Qed.

Lemma update_first_In {A : Type} (f : A -> bool) g l x :
  find f l = Some x -> In (g x) (update_first f g l).
Proof.
  induction l as [|y l IH]; simpl; [discriminate|].
  destruct (f y).
  - intros [= ->]. now left.
  - intros Hx. right. auto.
Qed.

Lemma update_first_const_In {A : Type} (f : A -> bool) p l :
  existsb f l = true -> In p (update_first f (fun _ => p) l).
Proof.
  induction l as [|y l IH]; simpl; [discriminate|].
  destruct (f y); simpl; auto.
Qed.

Lemma update_first_length {A : Type} (f : A -> bool) g l :
  length (update_first f g l) = length l.
Proof.
  induction l as [|y l IH]; simpl; [reflexivity|].
  destruct (f y); simpl; auto.
Qed.

Lemma remove_first_none {A : Type} (f : A -> bool) l :
  find f l = None -> remove_first f l = l.
Proof.
  induction l as [|y l IH]; simpl; [reflexivity|].
  destruct (f y); [discriminate|]. intros Hn. now rewrite IH.
Qed.

(** [remove_first] takes out nothing that fails the condition. *)
Lemma remove_first_keeps {A : Type} (f : A -> bool) l :
  List.filter (fun x => negb (f x)) (remove_first f l)
  = List.filter (fun x => negb (f x)) l.
Proof.
  induction l as [|y l IH]; simpl; [reflexivity|].
  destruct (f y) eqn:E; simpl; [reflexivity|].
  now rewrite E, IH.
Qed.

(** [remove_first] takes out at most one element. *)
Lemma remove_first_length {A : Type} (f : A -> bool) l :
  (length l <= S (length (remove_first f l)))%nat.
Proof.
  induction l as [|y l IH]; simpl; [lia|].
  destruct (f y); simpl; lia.
Qed.

Section HandlerProperties.
Context `{Packages}.
Variable jwtSecret : string.

(** What [Profile.findOne] returns, unfolded. *)
Lemma Profile_findOne_Some uid st p :
  Profile_findOne uid st = (inr (Some p), st) ->
  isValidObjectId uid = true /\ find (owned_by uid) (profiles st) = Some p.
Proof.
  unfold Profile_findOne, castObjectId, bind.
  destruct (isValidObjectId uid); cbn; [|discriminate].
  intros [= E]. auto.
Qed.

Lemma Profile_save_stored p p' st :
  In p (profiles st) -> profile_id p' = profile_id p ->
  In p' (profiles (snd (Profile_save p' st)))
  /\ length (profiles (snd (Profile_save p' st))) = length (profiles st)
  /\ users (snd (Profile_save p' st)) = users st
  /\ posts (snd (Profile_save p' st)) = posts st.
Proof.
  intros Hin Hid. unfold Profile_save. cbn.
  assert (E : existsb (same_id p') (profiles st) = true).
  { apply existsb_exists. exists p. split; [exact Hin|].
    unfold same_id. rewrite Hid. apply String.eqb_refl. }
  rewrite E. repeat split.
  - now apply update_first_const_In.
  - apply update_first_length.
Qed.

(** C7: a validated add-experience (resp. add-education) request of a caller
    whose profile is [p] puts the new entry at index 0 of the sequence, every
    earlier entry moves from index [i] to [i + 1], the rest of the profile is
    unchanged, and the updated profile is saved and returned with status
    200. *)
Theorem put_entry_inserts_at_front (user : AuthUser) (p : Profile)
  (st : Store) :
  Profile_findOne (auth_id user) st = (inr (Some p), st) ->
  (forall body : gmap string string,
      experience_checks body = [] ->
      exists e p' st',
        put_experience user body st = (inr (res_json 200 (JProfile p')), st')
        /\ e = newExp (newObjectId (next_id st)) body
        /\ experience p' = e :: experience p
        /\ experience p' !! 0%nat = Some e
        /\ (forall i : nat, experience p' !! S i = experience p !! i)
        /\ education p' = education p
        /\ profile_paths p' = profile_paths p
        /\ profile_id p' = profile_id p
        /\ In p' (profiles st')
        /\ length (profiles st') = length (profiles st))
  /\ (forall body : gmap string string,
      education_checks body = [] ->
      exists e p' st',
        put_education user body st = (inr (res_json 200 (JProfile p')), st')
        /\ e = newEdu (newObjectId (next_id st)) body
        /\ education p' = e :: education p
        /\ education p' !! 0%nat = Some e
        /\ (forall i : nat, education p' !! S i = education p !! i)
        /\ experience p' = experience p
        /\ profile_paths p' = profile_paths p
        /\ profile_id p' = profile_id p
        /\ In p' (profiles st')
        /\ length (profiles st') = length (profiles st)).
Proof.
  intros Hfind.
  destruct (Profile_findOne_Some _ _ _ Hfind) as [Hvalid Hp].
  destruct (find_In _ _ _ Hp) as [Hin _].
  split; intros body Hchecks.
  - set (e := newExp (newObjectId (next_id st)) body).
    set (p' := with_experience p (JS.unshift (experience p) e)).
    set (st1 := mkStore (users st) (profiles st) (posts st) (S (next_id st))).
    destruct (Profile_save_stored p p' st1 Hin eq_refl) as (Hs1 & Hs2 & _).
    exists e, p', (snd (Profile_save p' st1)).
    unfold put_experience. rewrite Hchecks. cbn [isEmpty negb].
    unfold try_catch, bind at 1. rewrite Hfind.
    repeat split; auto.
  - set (e := newEdu (newObjectId (next_id st)) body).
    set (p' := with_education p (JS.unshift (education p) e)).
    set (st1 := mkStore (users st) (profiles st) (posts st) (S (next_id st))).
    destruct (Profile_save_stored p p' st1 Hin eq_refl) as (Hs1 & Hs2 & _).
    exists e, p', (snd (Profile_save p' st1)).
    unfold put_education. rewrite Hchecks. cbn [isEmpty negb].
    unfold try_catch, bind at 1. rewrite Hfind.
    repeat split; auto.
Qed.


(** Without a profile the add-entry routes read a property of [null]; the
    handler's [catch] answers 500 and the store is as before. *)
Lemma put_entry_without_profile (user : AuthUser) (st : Store) :
  Profile_findOne (auth_id user) st = (inr None, st) ->
  (forall body : gmap string string,
      experience_checks body = [] ->
      put_experience user body st = (inr (res_send 500 "Server Error"), st))
  /\ (forall body : gmap string string,
      education_checks body = [] ->
      put_education user body st = (inr (res_send 500 "Server Error"), st)).
Proof.
  intros Hfind. split; intros body Hchecks.
  - unfold put_experience. rewrite Hchecks. cbn [isEmpty negb].
    unfold try_catch, bind. rewrite Hfind. reflexivity.
  - unfold put_education. rewrite Hchecks. cbn [isEmpty negb].
    unfold try_catch, bind. rewrite Hfind. reflexivity.
Qed.


(** C8: fetching a profile by a user id that the store cannot cast to an
    identifier, or by a well-formed id whose ObjectId owns no profile (no
    stored owner is cast to the same ObjectId), answers 400 with the message
    "Profile Not Found" (never 500) and leaves the store as it is. *)
Theorem get_profile_user_not_found (user_id : string) (st : Store) :
  isValidObjectId user_id = false
  \/ (isValidObjectId user_id = true
      /\ find (owned_by user_id) (profiles st) = None) ->
  get_profile_user user_id st
  = (inr (mkResponse 400
            (Json (Some (JObject [("msg", JString "Profile Not Found")])))),
     st).
Proof.
  unfold get_profile_user, try_catch, bind, Profile_findOne, castObjectId.
  intros [Hbad | [Hgood Hnone]].
  - rewrite Hbad. reflexivity.
  - rewrite Hgood. cbn. rewrite Hnone. reflexivity.
Qed.

(** C10: deleting the account of an authenticated user (whose identifier is
    one of the store's) answers 200 with the message "User Deleted" whether
    or not the profile or the user record exists.  The first profile of the
    user and the user record are removed, each removal doing nothing when its
    target is missing; every other profile and user, and all other content,
    stay. *)
Theorem delete_profile_confirms (user : AuthUser) (st : Store) :
  isValidObjectId (auth_id user) = true ->
  exists st',
    delete_profile user st
    = (inr (mkResponse 200
              (Json (Some (JObject [("msg", JString "User Deleted")])))),
       st')
    /\ profiles st' = remove_first (owned_by (auth_id user)) (profiles st)
    /\ users st' = remove_first (has_id (auth_id user)) (users st)
    /\ posts st' = posts st
    /\ next_id st' = next_id st
    /\ (find (owned_by (auth_id user)) (profiles st) = None ->
        profiles st' = profiles st)
    /\ (find (has_id (auth_id user)) (users st) = None ->
        users st' = users st)
    /\ List.filter (fun p => negb (owned_by (auth_id user) p)) (profiles st')
       = List.filter (fun p => negb (owned_by (auth_id user) p)) (profiles st)
    /\ List.filter (fun u => negb (has_id (auth_id user) u)) (users st')
       = List.filter (fun u => negb (has_id (auth_id user) u)) (users st)
    /\ (length (profiles st) <= S (length (profiles st')))%nat
    /\ (length (users st) <= S (length (users st')))%nat.
Proof.
  intros Hvalid.
  eexists. split.
  - unfold delete_profile, try_catch, bind, Profile_findOneAndRemove,
      User_findOneAndRemove, castObjectId, bind.
    rewrite Hvalid. cbn. reflexivity.
  - cbn. repeat split.
    + apply remove_first_none.
    + apply remove_first_none.
    + apply remove_first_keeps.
    + apply remove_first_keeps.
    + apply remove_first_length.
    + apply remove_first_length.
Qed.


(** *** Validation errors on the wire *)

Lemma serialize_error_object e :
  exists props,
    serialize (error_object e) = Some (JObject props)
    /\ assoc "param" props = Some (JString (ve_param e))
    /\ assoc "msg" props = Some (JString (ve_msg e)).
Proof.
  unfold error_object. destruct (ve_value e); cbn; eauto.
Qed.

Lemma serialize_errors_array_call errors :
  exists l,
    serialize (errors_array_call errors) = Some (JArray l)
    /\ length l = length errors
    /\ forallb is_field_message l = true.
Proof.
  unfold errors_array_call.
  induction errors as [|e errors (l & E & Hlen & Hall)].
  - exists []. repeat split.
  - destruct (serialize_error_object e) as (props & Ee & Hp & Hm).
    exists (JObject props :: l). cbn [map serialize] in *.
    rewrite Ee. injection E as E. rewrite E. repeat split.
    + cbn. now rewrite Hlen.
    + cbn [forallb is_field_message]. now rewrite Hp, Hm, Hall.
Qed.

(** A response built from [errors.array()] carries the structured array. *)
Lemma validation_response_has_errors errors :
  errors <> [] ->
  is_error_array
    (body_property "errors"
       (content
          (res_json 400 (JObject [("errors", errors_array_call errors)]))))
  = true.
Proof.
  intros Hne.
  destruct (serialize_errors_array_call errors) as (l & E & Hlen & Hall).
  unfold res_json. cbn [content serialize]. rewrite E. cbn.
  destruct l as [|x l]; [destruct errors; [contradiction|discriminate]|].
  exact Hall.
Qed.

Lemma isEmpty_false (errors : list ValidationError) :
  errors <> [] -> isEmpty errors = false.
Proof. destruct errors; [contradiction|reflexivity]. Qed.

Lemma find_exists {A : Type} (f : A -> bool) l x :
  In x l -> f x = true -> exists y, find f l = Some y.
Proof.
  induction l as [|z l IH]; simpl; [contradiction|].
  intros [->|Hin] Hf.
  - rewrite Hf. eauto.
  - destruct (f z); eauto.
Qed.

(** C6, amended: a registration request whose email is that of a stored
    user is answered 400 and leaves the store unchanged, so no second user
    with that email is created; when the request passes validation the body
    is the conflict error "User already exists", and when it does not the
    body is the array of validation errors. *)
Theorem duplicate_email_rejected (entropy : string) (now : Z)
  (body : gmap string string) (st : Store) (u : User) :
  In u (users st) ->
  user_email u = toString (body !! "email") ->
  exists r,
    post_users jwtSecret entropy now body st = (inr r, st)
    /\ status r = 400%nat
    /\ (register_checks body = [] ->
        r = mkResponse 400
              (Json (Some (JObject
                 [("errors",
                   JArray [JObject [("msg", JString "User already exists")]])]))))
    /\ (register_checks body <> [] ->
        is_error_array (body_property "errors" (content r)) = true).
Proof.
  intros Hin Hemail.
  destruct (find_exists (has_email (toString (body !! "email"))) _ u Hin)
    as [u' Hfind].
  { unfold has_email. rewrite Hemail. apply String.eqb_refl. }
  unfold post_users.
  destruct (register_checks body) as [|e errors] eqn:Hchecks.
  - cbn [isEmpty negb]. unfold try_catch, bind, User_findOne.
    rewrite Hfind. eexists. split; [reflexivity|].
    repeat split. intros Hne. contradiction.
  - cbn [isEmpty negb]. eexists. split; [reflexivity|].
    repeat split; [discriminate|]. intros _.
    apply validation_response_has_errors. discriminate.
Qed.


(** *** Tokens *)

Lemma auth_accepts (user : option AuthUser) (iat t : Z) :
  t < iat + 360000 ->
  auth jwtSecret t (Some (jwt_sign user jwtSecret 360000 iat)) = Next user.
Proof.
  intros Ht. unfold auth, jwt_verify, jwt_sign. cbn.
  rewrite String.eqb_refl. cbn.
  destruct (Z.leb_spec (iat + 360000) t); [lia|reflexivity].
Qed.

Lemma auth_rejects_bad_signature (token : Jwt) (t : Z) :
  jwt_signature token <> hmac jwtSecret (jwt_claims token) ->
  auth jwtSecret t (Some token)
  = Respond (res_json 401 (msg "Token is not valid")).
Proof.
  intros Hsig. unfold auth, jwt_verify.
  destruct (String.eqb_spec (jwt_signature token)
              (hmac jwtSecret (jwt_claims token))); [contradiction|].
  reflexivity.
Qed.

(** C4: a successful registration returns the token signed under the process
    secret whose claims are the new user's identifier, the issue time and an
    expiry 360000 seconds (100 hours) later.  Presented to the middleware
    before it expires, the token resolves to that user id; a token whose
    signature does not verify under the secret is answered 401 "Token is not
    valid". *)
Theorem registration_token_authenticates (entropy : string) (now : Z)
  (body : gmap string string) (st : Store) :
  register_checks body = [] ->
  find (has_email (toString (body !! "email"))) (users st) = None ->
  exists (token : Jwt) (u : User) (st' : Store),
    post_users jwtSecret entropy now body st
    = (inr (mkResponse 200
              (Json (Some (JObject [("token", JToken token)])))), st')
    /\ users st' = users st ++ [u]
    /\ user_email u = toString (body !! "email")
    /\ jwt_claims token
       = mkClaims (Some (mkAuthUser (user_id u))) now (now + 100 * 3600)
    /\ jwt_signature token = hmac jwtSecret (jwt_claims token)
    /\ (forall t : Z,
           now <= t < now + 100 * 3600 ->
           auth jwtSecret t (Some token)
           = Next (Some (mkAuthUser (user_id u))))
    /\ (forall (forged : Jwt) (t : Z),
           jwt_signature forged <> hmac jwtSecret (jwt_claims forged) ->
           auth jwtSecret t (Some forged)
           = Respond
               (mkResponse 401
                  (Json (Some (JObject
                     [("msg", JString "Token is not valid")]))))).
Proof.
  intros Hchecks Hfind.
  unfold post_users. rewrite Hchecks. cbn [isEmpty negb].
  unfold try_catch, bind at 1. unfold User_findOne at 1. rewrite Hfind.
  do 3 eexists. split; [reflexivity|].
  cbn [users user_email user_id].
  repeat split.
  - intros t Ht. apply auth_accepts. lia.
  - intros forged t Hsig. now apply auth_rejects_bad_signature.
Qed.

(** *** Password hashes *)









(** *** Create or update *)

Lemma notEmpty_passes field message (body : gmap string string) :
  check_notEmpty field message body = [] ->
  exists s, body !! field = Some s /\ JS.truthy (Some s) = true.
Proof.
  unfold check_notEmpty, toString.
  destruct (body !! field) as [s|]; cbn; [|discriminate].
  destruct (String.eqb s "") eqn:E; [discriminate|]. intros _.
  exists s. split; [reflexivity|]. unfold JS.truthy. now rewrite E.
Qed.

Lemma profileFields_skills user (body : gmap string string) skills :
  body !! "skills" = Some skills -> JS.truthy (Some skills) = true ->
  profileFields user body !! "skills" = Some (VList (skills_of skills)).
Proof.
  intros Hs Ht. unfold profileFields.
  rewrite lookup_insert_ne by discriminate.
  rewrite Hs. unfold set_if_truthy at 1. rewrite Ht.
  apply lookup_insert_eq.
Qed.

Lemma Profile_save_In p st : In p (profiles (snd (Profile_save p st))).
Proof.
  unfold Profile_save. cbn.
  destruct (existsb (same_id p) (profiles st)) eqn:E.
  - now apply update_first_const_In.
  - apply in_or_app. right. now left.
Qed.

(** A validated create-or-update request of a caller with a store
    identifier succeeds, and the profile it returns is stored and has every
    path of the update document. *)
Lemma post_profile_stores (user : AuthUser) (body : gmap string string)
  (st : Store) :
  profile_checks body = [] ->
  isValidObjectId (auth_id user) = true ->
  exists p st',
    post_profile user body st = (inr (res_json 200 (JProfile p)), st')
    /\ In p (profiles st')
    /\ (forall k v, profileFields user body !! k = Some v ->
                    profile_paths p !! k = Some v).
Proof.
  intros Hchecks Hvalid.
  unfold post_profile. rewrite Hchecks. cbn [isEmpty negb].
  unfold try_catch, bind at 1.
  unfold Profile_findOne at 1, castObjectId, bind at 1. rewrite Hvalid.
  cbn [ret].
  destruct (find (owned_by (auth_id user)) (profiles st)) as [p0|] eqn:Hfind.
  - unfold bind at 1, Profile_findOneAndUpdate, castObjectId, bind at 1.
    rewrite Hvalid. cbn [ret]. rewrite Hfind. cbn [fmap option_fmap option_map].
    do 2 eexists. split; [reflexivity|]. cbn [profiles]. split.
    + now apply update_first_In.
    + intros k v Hk. cbn [apply_set profile_paths].
      now apply lookup_union_Some_l.
  - unfold bind at 1. unfold new_Profile, bind at 1, freshObjectId. cbn [ret].
    unfold bind at 1.
    match goal with
    | |- context [Profile_save ?p ?s] =>
        pose proof (Profile_save_In p s) as Hin;
        destruct (Profile_save p s) as [[e|[]] st1] eqn:Hsave;
        [unfold Profile_save in Hsave; discriminate|]
    end.
    do 2 eexists. split; [reflexivity|]. split; [exact Hin|].
    intros k v Hk. exact Hk.
Qed.

(** C9: on a validated create-or-update request the skills input is cut at
    its commas (the pieces joined by commas give the input back, and no piece
    holds a comma) and each piece is stored, in order, without its leading
    and trailing white space, in the update document and in the profile
    returned; "node, react , css" is stored as ["node"; "react"; "css"]. *)
Theorem skills_split_and_trimmed (user : AuthUser)
  (body : gmap string string) (st : Store) :
  profile_checks body = [] ->
  isValidObjectId (auth_id user) = true ->
  exists (skills : string) (pieces stored : list string) (p : Profile)
         (st' : Store),
    body !! "skills" = Some skills
    /\ JS.join "," pieces = skills
    /\ Forall (fun piece => contains "," piece = false) pieces
    /\ Forall2 trimmed_of pieces stored
    /\ profileFields user body !! "skills" = Some (VList stored)
    /\ post_profile user body st = (inr (res_json 200 (JProfile p)), st')
    /\ In p (profiles st')
    /\ profile_paths p !! "skills" = Some (VList stored)
    /\ (skills = "node, react , css" -> stored = ["node"; "react"; "css"]).
Proof.
  intros Hchecks Hvalid.
  pose proof Hchecks as Hc. unfold profile_checks in Hc.
  apply app_eq_nil in Hc as [_ Hc].
  destruct (notEmpty_passes _ _ _ Hc) as (skills & Hs & Ht).
  destruct (post_profile_stores user body st Hchecks Hvalid)
    as (p & st' & Hrun & Hin & Hpaths).
  pose proof (profileFields_skills user body skills Hs Ht) as Hpf.
  exists skills, (JS.split "," skills), (skills_of skills), p, st'.
  repeat split; auto.
  - apply join_split.
  - apply split_no_separator.
  - apply map_trim_spec.
  - intros ->. reflexivity.
Qed.


(** *** Deleting an entry *)

(** An identifier that matches: the first entry that has it is removed and
    the others keep their order. *)
Lemma delete_experience_matching (user : AuthUser) (p : Profile) (st : Store)
  (l1 : list Experience) (e : Experience) (l2 : list Experience) :
  Profile_findOne (auth_id user) st = (inr (Some p), st) ->
  experience p = l1 ++ e :: l2 ->
  ~ In (exp_id e) (map exp_id l1) ->
  exists st',
    delete_experience user (exp_id e) st
    = (inr (res_json 200 (JProfile (with_experience p (l1 ++ l2)))), st').
Proof.
  intros Hfind Hl Hn. unfold delete_experience, try_catch, bind at 1.
  rewrite Hfind, Hl, remove_matching by exact Hn.
  eexists. reflexivity.
Qed.

(** An identifier that matches nothing: the last entry is removed. *)
Lemma delete_experience_missing (user : AuthUser) (p : Profile) (st : Store)
  (x : string) :
  Profile_findOne (auth_id user) st = (inr (Some p), st) ->
  ~ In x (map exp_id (experience p)) ->
  exists st',
    delete_experience user x st
    = (inr (res_json 200
              (JProfile (with_experience p (removelast (experience p))))),
       st').
Proof.
  intros Hfind Hn. unfold delete_experience, try_catch, bind at 1.
  rewrite Hfind, remove_missing by exact Hn.
  eexists. reflexivity.
Qed.

Lemma delete_education_matching (user : AuthUser) (p : Profile) (st : Store)
  (l1 : list Education) (e : Education) (l2 : list Education) :
  Profile_findOne (auth_id user) st = (inr (Some p), st) ->
  education p = l1 ++ e :: l2 ->
  ~ In (edu_id e) (map edu_id l1) ->
  exists st',
    delete_education user (edu_id e) st
    = (inr (res_json 200 (JProfile (with_education p (l1 ++ l2)))), st').
Proof.
  intros Hfind Hl Hn. unfold delete_education, try_catch, bind at 1.
  rewrite Hfind, Hl, remove_matching by exact Hn.
  eexists. reflexivity.
Qed.

Lemma delete_education_missing (user : AuthUser) (p : Profile) (st : Store)
  (x : string) :
  Profile_findOne (auth_id user) st = (inr (Some p), st) ->
  ~ In x (map edu_id (education p)) ->
  exists st',
    delete_education user x st
    = (inr (res_json 200
              (JProfile (with_education p (removelast (education p))))),
       st').
Proof.
  intros Hfind Hn. unfold delete_education, try_catch, bind at 1.
  rewrite Hfind, remove_missing by exact Hn.
  eexists. reflexivity.
Qed.

(** *** Validation failures, route by route *)

Lemma post_users_validation (entropy : string) (now : Z)
  (body : gmap string string) (st : Store) :
  register_checks body <> [] ->
  exists r,
    post_users jwtSecret entropy now body st = (inr r, st)
    /\ status r = 400%nat
    /\ is_error_array (body_property "errors" (content r)) = true.
Proof.
  intros Hne. unfold post_users. rewrite (isEmpty_false _ Hne).
  cbn [negb]. eexists. split; [reflexivity|]. split; [reflexivity|].
  now apply validation_response_has_errors.
Qed.

Lemma post_profile_validation (user : AuthUser) (body : gmap string string)
  (st : Store) :
  profile_checks body <> [] ->
  exists r,
    post_profile user body st = (inr r, st)
    /\ status r = 400%nat
    /\ is_error_array (body_property "errors" (content r)) = true.
Proof.
  intros Hne. unfold post_profile. rewrite (isEmpty_false _ Hne).
  cbn [negb]. eexists. split; [reflexivity|]. split; [reflexivity|].
  now apply validation_response_has_errors.
Qed.

(** The two add-entry routes answer 400 with an empty object. *)
Lemma put_experience_validation (user : AuthUser) (body : gmap string string)
  (st : Store) :
  experience_checks body <> [] ->
  put_experience user body st
  = (inr (mkResponse 400 (Json (Some (JObject [])))), st).
Proof.
  intros Hne. unfold put_experience. rewrite (isEmpty_false _ Hne).
  reflexivity.
Qed.

Lemma put_education_validation (user : AuthUser) (body : gmap string string)
  (st : Store) :
  education_checks body <> [] ->
  put_education user body st
  = (inr (mkResponse 400 (Json (Some (JObject [])))), st).
Proof.
  intros Hne. unfold put_education. rewrite (isEmpty_false _ Hne).
  reflexivity.
Qed.

(** *** The update document *)

Lemma set_if_truthy_lookup {V : Type} (k : string) (v : option string)
  (f : string -> V) (o : gmap string V) (j : string) :
  set_if_truthy k v f o !! j
  = if decide (k = j)
    then (if JS.truthy v then f <$> v else o !! j)
    else o !! j.
Proof.
  unfold set_if_truthy. destruct v as [s|].
  - destruct (JS.truthy (Some s)).
    + rewrite lookup_insert. reflexivity.
    + now destruct (decide (k = j)).
  - now destruct (decide (k = j)).
Qed.

(** Besides [user] and [social], the update document has only paths that
    the request supplies. *)
Lemma profileFields_only_supplied (user : AuthUser)
  (body : gmap string string) (k : string) :
  k <> "user" -> k <> "social" ->
  is_Some (profileFields user body !! k) ->
  JS.truthy (body !! k) = true.
Proof.
  intros Hu Hs. unfold profileFields.
  rewrite lookup_insert_ne by congruence.
  rewrite !set_if_truthy_lookup.
  repeat (case_decide; [subst k; destruct (JS.truthy _); [reflexivity|]|]);
    rewrite ?lookup_insert_ne, ?lookup_empty by congruence;
    intros [? [=]].
Qed.

(** The update document always has a [social] path, holding the links of
    this request only. *)
Lemma profileFields_social (user : AuthUser) (body : gmap string string) :
  profileFields user body !! "social" = Some (VObj (socialFields body)).
Proof. unfold profileFields. apply lookup_insert_eq. Qed.

(** [$set] keeps every path that the update document does not name. *)
Lemma apply_set_frame (update : gmap string value) (p : Profile) (k : string) :
  update !! k = None ->
  profile_paths (apply_set update p) !! k = profile_paths p !! k.
Proof.
  intros Hk. cbn [apply_set profile_paths].
  now rewrite lookup_union_r.
Qed.

End HandlerProperties.

(** ** The handlers on concrete requests *)

Section Runs.
Local Existing Instance Demo.packages.

(** C1: deleting by an identifier that matches no entry does not leave the
    sequence unchanged.  On a profile with two experience (resp. education)
    entries and an identifier that matches neither, [indexOf] gives -1,
    [splice(-1, 1)] removes the last entry, and the shortened sequence is
    saved and returned with status 200. *)
Theorem delete_unknown_id_removes_last_entry :
  (JS.indexOf (map exp_id (experience Demo.alice_profile)) Demo.unknown_id = -1
   /\ delete_experience Demo.alice Demo.unknown_id Demo.store
      = (inr (res_json 200
                (JProfile (with_experience Demo.alice_profile [Demo.job1]))),
         mkStore (users Demo.store)
           [with_experience Demo.alice_profile [Demo.job1]]
           (posts Demo.store) (next_id Demo.store))
   /\ experience Demo.alice_profile = [Demo.job1; Demo.job2])
  /\ (JS.indexOf (map edu_id (education Demo.alice_profile)) Demo.unknown_id = -1
      /\ delete_education Demo.alice Demo.unknown_id Demo.store
         = (inr (res_json 200
                   (JProfile
                      (with_education Demo.alice_profile [Demo.school1]))),
            mkStore (users Demo.store)
              [with_education Demo.alice_profile [Demo.school1]]
              (posts Demo.store) (next_id Demo.store))
      /\ education Demo.alice_profile = [Demo.school1; Demo.school2]).
Proof. repeat split; vm_compute; reflexivity. Qed.

(** C2: a request that fails validation on the add-experience (resp.
    add-education) route is answered 400, but the body holds no array of
    errors: its [errors] property is the method [errors.array] itself, which
    serialization leaves out, so the body is the empty object. *)
Theorem put_entry_validation_body_is_empty :
  (experience_checks ∅ <> []
   /\ put_experience Demo.alice ∅ Demo.store
      = (inr (mkResponse 400 (Json (Some (JObject [])))), Demo.store)
   /\ is_error_array
        (body_property "errors" (Json (Some (JObject [])))) = false)
  /\ (education_checks ∅ <> []
      /\ put_education Demo.alice ∅ Demo.store
         = (inr (mkResponse 400 (Json (Some (JObject [])))), Demo.store)).
Proof. repeat split; try discriminate; vm_compute; reflexivity. Qed.

(** C3: an update that supplies no social link removes the links stored
    before.  The stored profile has a youtube link and a company; after a
    validated update with only [status] and [skills], the company is kept
    but the [social] record is empty. *)
Theorem partial_update_drops_social_links :
  profile_checks Demo.partial_update = []
  /\ Demo.partial_update !! "youtube" = None
  /\ profile_paths Demo.alice_profile !! "social"
     = Some (VObj (<["youtube" := "https://youtube.com/alice"]> ∅))
  /\ exists p st',
       post_profile Demo.alice Demo.partial_update Demo.store
       = (inr (res_json 200 (JProfile p)), st')
       /\ profiles st' = [p]
       /\ profile_paths p !! "company" = Some (VStr "Acme")
       /\ profile_paths p !! "status" = Some (VStr "Senior developer")
       /\ profile_paths p !! "social" = Some (VObj ∅).
Proof.
  repeat split; try (vm_compute; reflexivity).
  do 2 eexists. split; [vm_compute; reflexivity|].
  repeat split; vm_compute; reflexivity.
Qed.

(** C6, as stated, fails: a request with the email of a stored user and an
    empty name is answered with the validation errors, not with the conflict
    error. *)
Lemma duplicate_email_invalid_name_not_conflict :
  In Demo.alice_user (users Demo.store)
  /\ user_email Demo.alice_user
     = toString (Demo.duplicate_without_name !! "email")
  /\ exists r st',
       post_users Demo.secret Demo.entropy 1000
         Demo.duplicate_without_name Demo.store = (inr r, st')
       /\ r <> res_json 400 user_exists
       /\ body_property "errors" (content r)
          = Some (JArray [JObject [("value", JString "");
                                   ("msg", JString "Name is required");
                                   ("param", JString "name");
                                   ("location", JString "body")]]).
Proof.
  split; [now left|]. split; [vm_compute; reflexivity|].
  do 2 eexists. split; [vm_compute; reflexivity|].
  split; [|vm_compute; reflexivity].
  intros E. vm_compute in E. discriminate E.
Qed.


(** *** The general statements at concrete requests *)

Lemma put_entry_inserts_at_front_witness :
  Profile_findOne (auth_id Demo.alice) Demo.store
  = (inr (Some Demo.alice_profile), Demo.store)
  /\ experience_checks Demo.new_job = []
  /\ education_checks Demo.new_school = []
  /\ (exists e p' st',
        put_experience Demo.alice Demo.new_job Demo.store
        = (inr (res_json 200 (JProfile p')), st')
        /\ experience p' = e :: [Demo.job1; Demo.job2])
  /\ (exists e p' st',
        put_education Demo.alice Demo.new_school Demo.store
        = (inr (res_json 200 (JProfile p')), st')
        /\ education p' = e :: [Demo.school1; Demo.school2]).
Proof.
  assert (Hfind : Profile_findOne (auth_id Demo.alice) Demo.store
                  = (inr (Some Demo.alice_profile), Demo.store))
    by (vm_compute; reflexivity).
  assert (Hjob : experience_checks Demo.new_job = [])
    by (vm_compute; reflexivity).
  assert (Hschool : education_checks Demo.new_school = [])
    by (vm_compute; reflexivity).
  destruct (put_entry_inserts_at_front Demo.alice Demo.alice_profile
              Demo.store Hfind) as [Hexp Hedu].
  destruct (Hexp Demo.new_job Hjob) as (e & p' & st' & Hrun & _ & Hfront & _).
  destruct (Hedu Demo.new_school Hschool)
    as (e2 & p2 & st2 & Hrun2 & _ & Hfront2 & _).
  repeat split; auto.
  - exists e, p', st'. auto.
  - exists e2, p2, st2. auto.
Defined.

Lemma get_profile_user_not_found_witness :
  isValidObjectId "not-an-id" = false
  /\ get_profile_user "not-an-id" Demo.store
     = (inr (mkResponse 400
               (Json (Some (JObject [("msg", JString "Profile Not Found")])))),
        Demo.store)
  /\ isValidObjectId Demo.unknown_id = true
  /\ find (owned_by Demo.unknown_id) (profiles Demo.store) = None
  /\ get_profile_user Demo.unknown_id Demo.store
     = (inr (mkResponse 400
               (Json (Some (JObject [("msg", JString "Profile Not Found")])))),
        Demo.store).
Proof.
  split; [reflexivity|]. split.
  - apply (get_profile_user_not_found "not-an-id" Demo.store).
    left. reflexivity.
  - split; [reflexivity|]. split; [reflexivity|].
    apply (get_profile_user_not_found Demo.unknown_id Demo.store).
    right. split; reflexivity.
Defined.

(** An identifier is looked up as the ObjectId it is cast to: alice's
    identifier written with an upper-case hex digit finds her profile. *)
Example get_profile_user_casts :
  find (owned_by Demo.alice_upper_case) (profiles Demo.store)
  = Some Demo.alice_profile
  /\ get_profile_user Demo.alice_upper_case Demo.store
     = get_profile_user (auth_id Demo.alice) Demo.store
  /\ get_profile_user (auth_id Demo.alice) Demo.store
     = (inr (mkResponse 200
               (Json (Some (JPopulated Demo.alice_profile
                              (Some (mkPublicUser (auth_id Demo.alice) "Alice"
                                       (user_avatar Demo.alice_user))))))),
        Demo.store).
Proof. repeat split; vm_compute; reflexivity. Qed.

Lemma delete_profile_confirms_witness :
  isValidObjectId (auth_id Demo.alice) = true
  /\ exists st',
       delete_profile Demo.alice Demo.store_no_profile
       = (inr (mkResponse 200
                 (Json (Some (JObject [("msg", JString "User Deleted")])))),
          st')
       /\ profiles st' = profiles Demo.store_no_profile
       /\ posts st' = posts Demo.store_no_profile.
Proof.
  split; [reflexivity|].
  destruct (delete_profile_confirms Demo.alice Demo.store_no_profile)
    as (st' & Hrun & _ & _ & Hposts & _ & Hnone & _); [reflexivity|].
  exists st'. repeat split; auto.
Defined.

Lemma duplicate_email_rejected_witness :
  In Demo.alice_user (users Demo.store)
  /\ user_email Demo.alice_user
     = toString (Demo.register_alice_again !! "email")
  /\ exists r,
       post_users Demo.secret Demo.entropy 1000 Demo.register_alice_again
         Demo.store = (inr r, Demo.store)
       /\ status r = 400%nat.
Proof.
  assert (Hin : In Demo.alice_user (users Demo.store)) by (now left).
  assert (Hemail : user_email Demo.alice_user
                   = toString (Demo.register_alice_again !! "email"))
    by (vm_compute; reflexivity).
  destruct (duplicate_email_rejected Demo.secret Demo.entropy 1000
              Demo.register_alice_again Demo.store Demo.alice_user Hin Hemail)
    as (r & Hrun & Hstatus & _).
  repeat split; auto. exists r. auto.
Defined.

Lemma registration_token_authenticates_witness :
  register_checks Demo.register_bob = []
  /\ find (has_email (toString (Demo.register_bob !! "email")))
       (users Demo.store) = None
  /\ exists token u st',
       post_users Demo.secret Demo.entropy 1000 Demo.register_bob Demo.store
       = (inr (mkResponse 200
                 (Json (Some (JObject [("token", JToken token)])))), st')
       /\ auth Demo.secret 360999 (Some token)
          = Next (Some (mkAuthUser (user_id u))).
Proof.
  assert (Hchecks : register_checks Demo.register_bob = [])
    by (vm_compute; reflexivity).
  assert (Hfind : find (has_email (toString (Demo.register_bob !! "email")))
                    (users Demo.store) = None)
    by (vm_compute; reflexivity).
  destruct (registration_token_authenticates Demo.secret Demo.entropy 1000
              Demo.register_bob Demo.store Hchecks Hfind)
    as (token & u & st' & Hrun & _ & _ & _ & _ & Hauth & _).
  repeat split; auto. exists token, u, st'. split; [exact Hrun|].
  apply Hauth. lia.
Defined.



Lemma skills_split_and_trimmed_witness :
  profile_checks Demo.with_skills = []
  /\ isValidObjectId (auth_id Demo.alice) = true
  /\ exists p st',
       post_profile Demo.alice Demo.with_skills Demo.store
       = (inr (res_json 200 (JProfile p)), st')
       /\ profile_paths p !! "skills"
          = Some (VList ["node"; "react"; "css"]).
Proof.
  assert (Hchecks : profile_checks Demo.with_skills = [])
    by (vm_compute; reflexivity).
  assert (Hvalid : isValidObjectId (auth_id Demo.alice) = true)
    by reflexivity.
  destruct (skills_split_and_trimmed Demo.alice Demo.with_skills Demo.store
              Hchecks Hvalid)
    as (skills & pieces & stored & p & st' & Hs & _ & _ & _ & _ & Hrun & _
        & Hstored & Hexample).
  repeat split; auto. exists p, st'. split; [exact Hrun|].
  rewrite Hstored, Hexample; [reflexivity|].
  assert (Hs' : Demo.with_skills !! "skills" = Some "node, react , css")
    by (vm_compute; reflexivity).
  congruence.
Defined.

End Runs.

(** * Further properties of the handlers *)

Section MoreProperties.
Context `{Packages}.
Variable jwtSecret : string.

(** ** The middleware *)

(** X1: The middleware lets a request through exactly when its token is signed
    under the process secret and has not expired, and then attaches the
    token's [user]; a missing token and a bad or expired one are answered
    401 with different messages. *)
Theorem auth_decides (now : Z) (token : option Jwt) :
  (forall u : option AuthUser,
      auth jwtSecret now token = Next u <->
      exists t : Jwt,
        token = Some t
        /\ jwt_signature t = hmac jwtSecret (jwt_claims t)
        /\ now < claim_exp (jwt_claims t)
        /\ u = claim_user (jwt_claims t))
  /\ (auth jwtSecret now token
      = Respond (res_json 401 (msg "No token, authorization denied"))
      <-> token = None)
  /\ (auth jwtSecret now token
      = Respond (res_json 401 (msg "Token is not valid"))
      <-> exists t : Jwt,
            token = Some t
            /\ (jwt_signature t <> hmac jwtSecret (jwt_claims t)
                \/ claim_exp (jwt_claims t) <= now)).
Proof.
  unfold auth, jwt_verify.
  destruct token as [t|];
    [destruct (String.eqb_spec (jwt_signature t)
                 (hmac jwtSecret (jwt_claims t))) as [Hsig|Hsig];
     cbn [negb];
     [destruct (Z.leb_spec (claim_exp (jwt_claims t)) now) as [Hexp|Hexp]|]|];
    repeat split; intros Hx;
    try discriminate Hx; try reflexivity;
    try (destruct Hx as (t' & Ht & Hrest);
         try discriminate Ht; injection Ht as <-);
    try (destruct Hrest as (Hs & Hlt & ->));
    try (destruct Hrest as [Hbad|Hbad]);
    try contradiction; try lia; try reflexivity;
    try (injection Hx as <-); try (exists t; auto).
Qed.

(** ** Validation of a registration *)




(** ** Lists of documents *)

Lemma find_update_first {A : Type} (f : A -> bool) (g : A -> A) l x :
  find f l = Some x -> f (g x) = true ->
  find f (update_first f g l) = Some (g x).
Proof.
  induction l as [|y l IH]; simpl; [discriminate|].
  destruct (f y) eqn:E.
  - intros [= ->] Hg. simpl. now rewrite Hg.
  - intros Hx Hg. simpl. rewrite E. auto.
Qed.

Lemma update_first_fixed {A : Type} (f : A -> bool) (g : A -> A) l x :
  find f l = Some x -> g x = x -> update_first f g l = l.
Proof.
  induction l as [|y l IH]; simpl; [reflexivity|].
  destruct (f y).
  - intros [= ->] ->. reflexivity.
  - intros Hx Hg. now rewrite IH.
Qed.

Lemma find_app_none {A : Type} (f : A -> bool) l l' :
  find f l = None -> find f (l ++ l') = find f l'.
Proof.
  induction l as [|y l IH]; simpl; [reflexivity|].
  destruct (f y); [discriminate|]. exact IH.
Qed.

(** After [save] of a document owned by [uid], in a collection where [uid]
    owned nothing, the first document of [uid] is the saved one. *)
Lemma find_saved_new uid p l :
  find (owned_by uid) l = None -> owned_by uid p = true ->
  find (owned_by uid)
    (if existsb (same_id p) l
     then update_first (same_id p) (fun _ => p) l else l ++ [p])
  = Some p.
Proof.
  intros Hnone Hp. destruct (existsb (same_id p) l) eqn:E.
  - induction l as [|y l IH]; simpl in *; [discriminate|].
    destruct (owned_by uid y) eqn:Hy; [discriminate|].
    destruct (same_id p y); simpl.
    + now rewrite Hp.
    + rewrite Hy. auto.
  - rewrite find_app_none by exact Hnone. simpl. now rewrite Hp.
Qed.

(** After [save] of a changed copy [q] of the first document [p] of [uid],
    with the identifier and the owner of [p], the first document of [uid] is
    [q]. *)
Lemma find_saved_copy uid p q l :
  find (owned_by uid) l = Some p ->
  profile_id q = profile_id p -> owned_by uid q = true ->
  find (owned_by uid) (update_first (same_id q) (fun _ => q) l) = Some q.
Proof.
  intros Hfind Hid Hq.
  induction l as [|y l IH]; simpl in *; [discriminate|].
  destruct (owned_by uid y) eqn:Hy.
  - injection Hfind as ->. unfold same_id at 1. rewrite Hid, String.eqb_refl.
    simpl. now rewrite Hq.
  - destruct (same_id q y); simpl.
    + now rewrite Hq.
    + rewrite Hy. auto.
Qed.

Lemma existsb_same_id p q l :
  In p l -> profile_id q = profile_id p -> existsb (same_id q) l = true.
Proof.
  intros Hin Hid. apply existsb_exists. exists p. split; [exact Hin|].
  unfold same_id. rewrite Hid. apply String.eqb_refl.
Qed.

(** ** Create or update *)

Lemma profileFields_user (user : AuthUser) (body : gmap string string) :
  profileFields user body !! "user" = Some (VStr (auth_id user)).
Proof.
  unfold profileFields. rewrite lookup_insert_ne by discriminate.
  rewrite !set_if_truthy_lookup.
  repeat (case_decide; [discriminate|]).
  apply lookup_insert_eq.
Qed.

Lemma owned_by_paths uid (p : Profile) :
  profile_paths p !! "user" = Some (VStr uid) -> owned_by uid p = true.
Proof.
  intros Hu. unfold owned_by, profile_user. rewrite Hu.
  apply String.eqb_refl.
Qed.

(** The owner of a profile of [uid] is cast to the ObjectId of [uid]. *)
Lemma owned_by_same uid (p : Profile) :
  owned_by uid p = true ->
  exists u, profile_user p = Some u
            /\ objectIdString u = objectIdString uid.
Proof.
  unfold owned_by. destruct (profile_user p) as [u|]; [|discriminate].
  intros E. apply String.eqb_eq in E. eauto.
Qed.

Lemma owned_by_owner uid (p : Profile) :
  owned_by uid p = true -> profile_owner p = Some (objectIdString uid).
Proof.
  intros E. destruct (owned_by_same uid p E) as (u & Hu & Hsame).
  unfold profile_owner. now rewrite Hu, Hsame.
Qed.

Lemma find_has_id_same (a b : string) (l : list User) :
  objectIdString a = objectIdString b ->
  find (has_id a) l = find (has_id b) l.
Proof.
  intros E. induction l as [|u l IH]; [reflexivity|]. simpl.
  unfold has_id at 1 3, sameObjectId. now rewrite E, IH.
Qed.

Lemma profile_user_paths uid (p : Profile) :
  profile_paths p !! "user" = Some (VStr uid) -> profile_user p = Some uid.
Proof. intros Hu. unfold profile_user. now rewrite Hu. Qed.

Lemma store_eta (st : Store) :
  mkStore (users st) (profiles st) (posts st) (next_id st) = st.
Proof. now destruct st. Qed.

(** What a validated create-or-update request of a caller with a store
    identifier does, by whether the caller has a profile. *)
Lemma post_profile_result (user : AuthUser) (body : gmap string string)
  (st : Store) :
  profile_checks body = [] ->
  isValidObjectId (auth_id user) = true ->
  exists p st',
    post_profile user body st = (inr (res_json 200 (JProfile p)), st')
    /\ find (owned_by (auth_id user)) (profiles st') = Some p
    /\ users st' = users st
    /\ posts st' = posts st
    /\ match find (owned_by (auth_id user)) (profiles st) with
       | Some p0 =>
           p = apply_set (profileFields user body) p0
           /\ next_id st' = next_id st
           /\ profiles st'
              = update_first (owned_by (auth_id user))
                  (apply_set (profileFields user body)) (profiles st)
       | None =>
           p = mkProfile (newObjectId (next_id st))
                 (profileFields user body) [] []
           /\ next_id st' = S (next_id st)
           /\ profiles st'
              = (if existsb (same_id p) (profiles st)
                 then update_first (same_id p) (fun _ => p) (profiles st)
                 else profiles st ++ [p])
       end.
Proof.
  intros Hchecks Hvalid.
  unfold post_profile. rewrite Hchecks. cbn [isEmpty negb].
  unfold try_catch, bind at 1.
  unfold Profile_findOne at 1, castObjectId, bind at 1. rewrite Hvalid.
  cbn [ret].
  destruct (find (owned_by (auth_id user)) (profiles st)) as [p0|] eqn:Hfind.
  - unfold bind at 1, Profile_findOneAndUpdate, castObjectId, bind at 1.
    rewrite Hvalid. cbn [ret]. rewrite Hfind.
    cbn [fmap option_fmap option_map].
    do 2 eexists. split; [reflexivity|]. cbn [profiles users posts next_id].
    repeat split.
    apply find_update_first; [exact Hfind|].
    apply owned_by_paths. cbn [apply_set profile_paths].
    apply lookup_union_Some_l, profileFields_user.
  - unfold bind at 1. unfold new_Profile, bind at 1, freshObjectId. cbn [ret].
    unfold bind at 1, Profile_save. cbn [ret].
    do 2 eexists. split; [reflexivity|]. cbn [profiles users posts next_id].
    repeat split.
    apply find_saved_new; [exact Hfind|].
    apply owned_by_paths, profileFields_user.
Qed.

(** The profile that a create-or-update request answers with has the
    caller's identifier on its [user] path. *)
Lemma post_profile_result_user (user : AuthUser) (body : gmap string string)
  (st : Store) (p : Profile) (st' : Store) :
  profile_checks body = [] ->
  isValidObjectId (auth_id user) = true ->
  post_profile user body st = (inr (res_json 200 (JProfile p)), st') ->
  profile_user p = Some (auth_id user).
Proof.
  intros Hchecks Hvalid Hrun.
  destruct (post_profile_result user body st Hchecks Hvalid)
    as (q & st2 & Hrun2 & _ & _ & _ & Hcase).
  rewrite Hrun in Hrun2. injection Hrun2 as <- _.
  apply profile_user_paths.
  destruct (find (owned_by (auth_id user)) (profiles st)) as [p0|].
  - destruct Hcase as (-> & _). cbn [apply_set profile_paths].
    apply lookup_union_Some_l, profileFields_user.
  - destruct Hcase as (-> & _). apply profileFields_user.
Qed.

Lemma Profile_findOne_run uid (st : Store) :
  isValidObjectId uid = true ->
  Profile_findOne uid st = (inr (find (owned_by uid) (profiles st)), st).
Proof.
  intros Hvalid. unfold Profile_findOne, castObjectId, bind.
  now rewrite Hvalid.
Qed.

(** X3: A validated create-or-update request of a caller who has no profile
    creates one: it has the next generated identifier, the paths of the
    update document (so the caller as owner) and empty experience and
    education sequences; it is what a later lookup of the caller finds, and
    it is added after the stored profiles when its identifier is new. *)
Theorem post_profile_creates (user : AuthUser) (body : gmap string string)
  (st : Store) :
  profile_checks body = [] ->
  isValidObjectId (auth_id user) = true ->
  find (owned_by (auth_id user)) (profiles st) = None ->
  exists p st',
    post_profile user body st = (inr (res_json 200 (JProfile p)), st')
    /\ profile_id p = newObjectId (next_id st)
    /\ profile_paths p = profileFields user body
    /\ profile_user p = Some (auth_id user)
    /\ experience p = [] /\ education p = []
    /\ Profile_findOne (auth_id user) st' = (inr (Some p), st')
    /\ users st' = users st
    /\ (existsb (same_id p) (profiles st) = false ->
        profiles st' = profiles st ++ [p]).
Proof.
  intros Hchecks Hvalid Hnone.
  destruct (post_profile_result user body st Hchecks Hvalid)
    as (p & st' & Hrun & Hfind & Hu & _ & Hcase).
  rewrite Hnone in Hcase. destruct Hcase as (Hp & _ & Hprofiles).
  exists p, st'. split; [exact Hrun|].
  repeat split; try (rewrite Hp; reflexivity); auto.
  - now apply (post_profile_result_user user body st p st').
  - rewrite Profile_findOne_run by exact Hvalid. now rewrite Hfind.
  - intros E. now rewrite E in Hprofiles.
Qed.

Lemma socialFields_lookup (body : gmap string string) (k v : string) :
  socialFields body !! k = Some v <->
  In k social_links /\ body !! k = Some v /\ v <> "".
Proof.
  unfold socialFields, social_links. rewrite !set_if_truthy_lookup.
  assert (Htruthy : forall o : option string,
             (if JS.truthy o then id <$> o else None) = Some v
             <-> o = Some v /\ v <> "").
  { intros [s|]; cbn; [|split; [discriminate|intros [[=] _]]].
    destruct (String.eqb_spec s ""); cbn; split.
    - discriminate.
    - intros [[= ->] Hne]. contradiction.
    - intros [= ->]. auto.
    - intros [[= ->] _]. reflexivity. }
  repeat case_decide; subst; try discriminate;
    rewrite ?Htruthy, ?lookup_empty; simpl;
    intuition (try discriminate; try congruence).
Qed.


(** X4: A validated create-or-update request of a caller who has a profile
    changes that profile in place: identifier, experience and education are
    as before, every path other than [user] and [social] that the request
    does not supply keeps its value, and [social] becomes exactly the links
    the request supplies.  No profile is added, no user is touched, and a
    later lookup of the caller finds the updated profile. *)
Theorem post_profile_updates (user : AuthUser) (body : gmap string string)
  (st : Store) (p0 : Profile) :
  profile_checks body = [] ->
  isValidObjectId (auth_id user) = true ->
  find (owned_by (auth_id user)) (profiles st) = Some p0 ->
  exists p st',
    post_profile user body st = (inr (res_json 200 (JProfile p)), st')
    /\ profile_id p = profile_id p0
    /\ experience p = experience p0
    /\ education p = education p0
    /\ (forall k : string,
           k <> "user" -> k <> "social" -> JS.truthy (body !! k) = false ->
           profile_paths p !! k = profile_paths p0 !! k)
    /\ (exists social : gmap string string,
           profile_paths p !! "social" = Some (VObj social)
           /\ forall k v : string,
               social !! k = Some v <->
               In k social_links /\ body !! k = Some v /\ v <> "")
    /\ Profile_findOne (auth_id user) st' = (inr (Some p), st')
    /\ length (profiles st') = length (profiles st)
    /\ users st' = users st
    /\ next_id st' = next_id st.
Proof.
  intros Hchecks Hvalid Hsome.
  destruct (post_profile_result user body st Hchecks Hvalid)
    as (p & st' & Hrun & Hfind & Hu & _ & Hcase).
  rewrite Hsome in Hcase. destruct Hcase as (Hp & Hnext & Hprofiles).
  exists p, st'. split; [exact Hrun|].
  repeat split; try (rewrite Hp; reflexivity); auto.
  - intros k Hk1 Hk2 Ht. rewrite Hp. apply apply_set_frame.
    destruct (profileFields user body !! k) eqn:E; [|reflexivity].
    rewrite (profileFields_only_supplied user body k Hk1 Hk2) in Ht;
      [discriminate|eauto].
  - exists (socialFields body). split.
    + rewrite Hp. cbn [apply_set profile_paths].
      apply lookup_union_Some_l, profileFields_social.
    + apply socialFields_lookup.
  - rewrite Profile_findOne_run by exact Hvalid. now rewrite Hfind.
  - rewrite Hprofiles. apply update_first_length.
Qed.

Lemma apply_set_twice (update : gmap string value) (p : Profile) :
  apply_set update (apply_set update p) = apply_set update p.
Proof.
  unfold apply_set. cbn [profile_id profile_paths experience education].
  f_equal. apply map_eq. intros k. rewrite !lookup_union.
  destruct (update !! k), (profile_paths p !! k); reflexivity.
Qed.

(** X5: Repeating a validated create-or-update request changes nothing: the
    second answer is the first one again, and the store is as the first
    request left it. *)
Theorem post_profile_idempotent (user : AuthUser)
  (body : gmap string string) (st : Store) :
  profile_checks body = [] ->
  isValidObjectId (auth_id user) = true ->
  exists r st',
    post_profile user body st = (inr r, st')
    /\ post_profile user body st' = (inr r, st').
Proof.
  intros Hchecks Hvalid.
  destruct (post_profile_result user body st Hchecks Hvalid)
    as (p & st' & Hrun & Hfind & _ & _ & Hcase).
  destruct (post_profile_result user body st' Hchecks Hvalid)
    as (q & st2 & Hrun2 & _ & Hu2 & Hposts2 & Hcase2).
  rewrite Hfind in Hcase2. destruct Hcase2 as (Hq & Hnext2 & Hprofiles2).
  assert (Hfixed : apply_set (profileFields user body) p = p).
  { destruct (find (owned_by (auth_id user)) (profiles st)) as [p0|].
    - destruct Hcase as (-> & _). apply apply_set_twice.
    - destruct Hcase as (-> & _). unfold apply_set.
      cbn [profile_id profile_paths experience education].
      f_equal. apply map_eq. intros k. rewrite lookup_union.
      now destruct (profileFields user body !! k). }
  exists (res_json 200 (JProfile p)), st'. split; [exact Hrun|].
  rewrite Hrun2, Hq, Hfixed. f_equal.
  rewrite (update_first_fixed _ _ _ p Hfind Hfixed) in Hprofiles2.
  rewrite <- (store_eta st2), Hu2, Hposts2, Hnext2, Hprofiles2.
  apply store_eta.
Qed.


(** ** Adding and deleting entries *)

Lemma update_first_const_twice (p q : Profile) l :
  profile_id p = profile_id q ->
  update_first (same_id p) (fun _ => p)
    (update_first (same_id q) (fun _ => q) l)
  = update_first (same_id p) (fun _ => p) l.
Proof.
  intros Hid. induction l as [|y l IH]; simpl; [reflexivity|].
  unfold same_id at 2 4. rewrite Hid.
  destruct (String.eqb (profile_id y) (profile_id q)) eqn:E; simpl.
  - unfold same_id. now rewrite Hid, String.eqb_refl.
  - unfold same_id at 1. rewrite Hid, E. now rewrite IH.
Qed.

Lemma update_first_self (p : Profile) l :
  List.NoDup (map profile_id l) -> In p l ->
  update_first (same_id p) (fun _ => p) l = l.
Proof.
  induction l as [|y l IH]; simpl; [contradiction|].
  intros Hnd Hin. inversion Hnd as [|? ? Hnotin Hnd']; subst.
  unfold same_id at 1.
  destruct (String.eqb_spec (profile_id y) (profile_id p)) as [E|E].
  - destruct Hin as [->|Hin]; [reflexivity|].
    exfalso. apply Hnotin. rewrite E. now apply in_map.
  - destruct Hin as [->|Hin]; [contradiction|]. now rewrite IH.
Qed.

(** What [put_experience] does for a caller whose profile is [p]. *)
Lemma put_experience_run (user : AuthUser) (body : gmap string string)
  (st : Store) (p : Profile) :
  Profile_findOne (auth_id user) st = (inr (Some p), st) ->
  experience_checks body = [] ->
  let p' := with_experience p
              (newExp (newObjectId (next_id st)) body :: experience p) in
  let st' := mkStore (users st)
               (update_first (same_id p') (fun _ => p') (profiles st))
               (posts st) (S (next_id st)) in
  put_experience user body st = (inr (res_json 200 (JProfile p')), st')
  /\ Profile_findOne (auth_id user) st' = (inr (Some p'), st').
Proof.
  intros Hfind Hchecks p' st'.
  assert (Hid : profile_id p' = profile_id p) by reflexivity.
  assert (Hown : owned_by (auth_id user) p' = owned_by (auth_id user) p)
    by reflexivity.
  destruct (Profile_findOne_Some _ _ _ Hfind) as [Hvalid Hp].
  destruct (find_In _ _ _ Hp) as [Hin Howned].
  split.
  - unfold put_experience. rewrite Hchecks. cbn [isEmpty negb].
    unfold try_catch, bind at 1. rewrite Hfind.
    unfold bind, freshObjectId, Profile_save, ret, JS.unshift.
    cbn [profiles users posts next_id].
    fold p'. rewrite (existsb_same_id p p' _ Hin Hid). reflexivity.
  - rewrite Profile_findOne_run by exact Hvalid. subst st'.
    cbn [profiles]. rewrite <- Hown in Howned.
    now rewrite (find_saved_copy _ p p' _ Hp Hid Howned).
Qed.

Lemma put_education_run (user : AuthUser) (body : gmap string string)
  (st : Store) (p : Profile) :
  Profile_findOne (auth_id user) st = (inr (Some p), st) ->
  education_checks body = [] ->
  let p' := with_education p
              (newEdu (newObjectId (next_id st)) body :: education p) in
  let st' := mkStore (users st)
               (update_first (same_id p') (fun _ => p') (profiles st))
               (posts st) (S (next_id st)) in
  put_education user body st = (inr (res_json 200 (JProfile p')), st')
  /\ Profile_findOne (auth_id user) st' = (inr (Some p'), st').
Proof.
  intros Hfind Hchecks p' st'.
  assert (Hid : profile_id p' = profile_id p) by reflexivity.
  assert (Hown : owned_by (auth_id user) p' = owned_by (auth_id user) p)
    by reflexivity.
  destruct (Profile_findOne_Some _ _ _ Hfind) as [Hvalid Hp].
  destruct (find_In _ _ _ Hp) as [Hin Howned].
  split.
  - unfold put_education. rewrite Hchecks. cbn [isEmpty negb].
    unfold try_catch, bind at 1. rewrite Hfind.
    unfold bind, freshObjectId, Profile_save, ret, JS.unshift.
    cbn [profiles users posts next_id].
    fold p'. rewrite (existsb_same_id p p' _ Hin Hid). reflexivity.
  - rewrite Profile_findOne_run by exact Hvalid. subst st'.
    cbn [profiles]. rewrite <- Hown in Howned.
    now rewrite (find_saved_copy _ p p' _ Hp Hid Howned).
Qed.

(** What [delete_experience] does for a caller whose profile is [p]. *)
Lemma delete_experience_run (user : AuthUser) (x : string) (st : Store)
  (p : Profile) :
  Profile_findOne (auth_id user) st = (inr (Some p), st) ->
  let p' := with_experience p
              (JS.splice (experience p)
                 (JS.indexOf (map exp_id (experience p)) x) 1) in
  let st' := mkStore (users st)
               (update_first (same_id p') (fun _ => p') (profiles st))
               (posts st) (next_id st) in
  delete_experience user x st = (inr (res_json 200 (JProfile p')), st')
  /\ Profile_findOne (auth_id user) st' = (inr (Some p'), st').
Proof.
  intros Hfind p' st'.
  assert (Hid : profile_id p' = profile_id p) by reflexivity.
  assert (Hown : owned_by (auth_id user) p' = owned_by (auth_id user) p)
    by reflexivity.
  destruct (Profile_findOne_Some _ _ _ Hfind) as [Hvalid Hp].
  destruct (find_In _ _ _ Hp) as [Hin Howned].
  split.
  - unfold delete_experience, try_catch, bind at 1. rewrite Hfind.
    unfold bind, Profile_save, ret. cbn [profiles users posts next_id].
    fold p'. rewrite (existsb_same_id p p' _ Hin Hid). reflexivity.
  - rewrite Profile_findOne_run by exact Hvalid. subst st'.
    cbn [profiles]. rewrite <- Hown in Howned.
    now rewrite (find_saved_copy _ p p' _ Hp Hid Howned).
Qed.

Lemma delete_education_run (user : AuthUser) (x : string) (st : Store)
  (p : Profile) :
  Profile_findOne (auth_id user) st = (inr (Some p), st) ->
  let p' := with_education p
              (JS.splice (education p)
                 (JS.indexOf (map edu_id (education p)) x) 1) in
  let st' := mkStore (users st)
               (update_first (same_id p') (fun _ => p') (profiles st))
               (posts st) (next_id st) in
  delete_education user x st = (inr (res_json 200 (JProfile p')), st')
  /\ Profile_findOne (auth_id user) st' = (inr (Some p'), st').
Proof.
  intros Hfind p' st'.
  assert (Hid : profile_id p' = profile_id p) by reflexivity.
  assert (Hown : owned_by (auth_id user) p' = owned_by (auth_id user) p)
    by reflexivity.
  destruct (Profile_findOne_Some _ _ _ Hfind) as [Hvalid Hp].
  destruct (find_In _ _ _ Hp) as [Hin Howned].
  split.
  - unfold delete_education, try_catch, bind at 1. rewrite Hfind.
    unfold bind, Profile_save, ret. cbn [profiles users posts next_id].
    fold p'. rewrite (existsb_same_id p p' _ Hin Hid). reflexivity.
  - rewrite Profile_findOne_run by exact Hvalid. subst st'.
    cbn [profiles]. rewrite <- Hown in Howned.
    now rewrite (find_saved_copy _ p p' _ Hp Hid Howned).
Qed.

Lemma splice_head {A : Type} (key : A -> string) (e : A) (l : list A) :
  JS.splice (e :: l) (JS.indexOf (map key (e :: l)) (key e)) 1 = l.
Proof. apply (remove_matching key [] e l). simpl. tauto. Qed.

Lemma with_experience_back (p : Profile) (l : list Experience) :
  with_experience (with_experience p l) (experience p) = p.
Proof. now destruct p. Qed.

Lemma with_education_back (p : Profile) (l : list Education) :
  with_education (with_education p l) (education p) = p.
Proof. now destruct p. Qed.

(** X6: Adding an entry and then deleting by the identifier the new entry got
    gives the profile back: the delete answers with the profile as it was
    before the add, a later lookup finds it, and when profile identifiers
    are distinct the stored profiles are exactly those before the add. *)
Theorem put_then_delete_restores (user : AuthUser) (p : Profile)
  (st : Store) :
  Profile_findOne (auth_id user) st = (inr (Some p), st) ->
  (forall body : gmap string string,
      experience_checks body = [] ->
      exists e st1 st2,
        put_experience user body st
        = (inr (res_json 200
                  (JProfile (with_experience p (e :: experience p)))), st1)
        /\ delete_experience user (exp_id e) st1
           = (inr (res_json 200 (JProfile p)), st2)
        /\ Profile_findOne (auth_id user) st2 = (inr (Some p), st2)
        /\ users st2 = users st
        /\ (List.NoDup (map profile_id (profiles st)) ->
            profiles st2 = profiles st))
  /\ (forall body : gmap string string,
      education_checks body = [] ->
      exists e st1 st2,
        put_education user body st
        = (inr (res_json 200
                  (JProfile (with_education p (e :: education p)))), st1)
        /\ delete_education user (edu_id e) st1
           = (inr (res_json 200 (JProfile p)), st2)
        /\ Profile_findOne (auth_id user) st2 = (inr (Some p), st2)
        /\ users st2 = users st
        /\ (List.NoDup (map profile_id (profiles st)) ->
            profiles st2 = profiles st)).
Proof.
  intros Hfind.
  destruct (Profile_findOne_Some _ _ _ Hfind) as [Hvalid Hp].
  destruct (find_In _ _ _ Hp) as [Hin _].
  split; intros body Hchecks.
  - destruct (put_experience_run user body st p Hfind Hchecks)
      as [Hput Hfind1].
    set (e := newExp (newObjectId (next_id st)) body) in *.
    set (p1 := with_experience p (e :: experience p)) in *.
    destruct (delete_experience_run user (exp_id e) _ p1 Hfind1)
      as [Hdel Hfind2].
    assert (Hsplice : JS.splice (experience p1)
                        (JS.indexOf (map exp_id (experience p1)) (exp_id e))
                        1 = experience p)
      by apply (splice_head exp_id e (experience p)).
    assert (Hback : with_experience p1 (experience p) = p)
      by apply with_experience_back.
    rewrite Hsplice, Hback in Hdel, Hfind2.
    do 3 eexists. split; [exact Hput|]. split; [exact Hdel|].
    split; [exact Hfind2|]. split; [reflexivity|].
    intros Hnd. cbn [profiles].
    rewrite update_first_const_twice by reflexivity.
    now apply update_first_self.
  - destruct (put_education_run user body st p Hfind Hchecks)
      as [Hput Hfind1].
    set (e := newEdu (newObjectId (next_id st)) body) in *.
    set (p1 := with_education p (e :: education p)) in *.
    destruct (delete_education_run user (edu_id e) _ p1 Hfind1)
      as [Hdel Hfind2].
    assert (Hsplice : JS.splice (education p1)
                        (JS.indexOf (map edu_id (education p1)) (edu_id e))
                        1 = education p)
      by apply (splice_head edu_id e (education p)).
    assert (Hback : with_education p1 (education p) = p)
      by apply with_education_back.
    rewrite Hsplice, Hback in Hdel, Hfind2.
    do 3 eexists. split; [exact Hput|]. split; [exact Hdel|].
    split; [exact Hfind2|]. split; [reflexivity|].
    intros Hnd. cbn [profiles].
    rewrite update_first_const_twice by reflexivity.
    now apply update_first_self.
Qed.


Lemma first_occurrence {A : Type} (key : A -> string) (x : string) l :
  In x (map key l) ->
  exists l1 e l2,
    l = l1 ++ e :: l2 /\ key e = x /\ ~ In x (map key l1).
Proof.
  induction l as [|y l IH]; simpl; [contradiction|].
  destruct (string_dec (key y) x) as [E|E].
  - intros _. exists [], y, l. simpl. tauto.
  - intros [Hy|Hin]; [contradiction|].
    destruct (IH Hin) as (l1 & e & l2 & -> & He & Hn).
    exists (y :: l1), e, l2. simpl. repeat split; auto. tauto.
Qed.

Lemma removelast_length {A : Type} (l : list A) :
  length (removelast l) = pred (length l).
Proof.
  induction l as [|y l _] using rev_ind; [reflexivity|].
  rewrite removelast_last, length_app. simpl. lia.
Qed.

Lemma removelast_In {A : Type} (l : list A) (x : A) :
  In x (removelast l) -> In x l.
Proof.
  induction l as [|y l _] using rev_ind; [simpl; tauto|].
  rewrite removelast_last. intros Hin. apply in_or_app. now left.
Qed.

(** [splice] at [indexOf] always takes one element out of a non-empty array
    and puts nothing in. *)
Lemma remove_by_key {A : Type} (key : A -> string) (x : string) l :
  let l' := JS.splice l (JS.indexOf (map key l) x) 1 in
  length l' = pred (length l)
  /\ (forall e, In e l' -> In e l)
  /\ (forall l1 e l2,
         l = l1 ++ e :: l2 -> key e = x -> ~ In x (map key l1) ->
         l' = l1 ++ l2)
  /\ (~ In x (map key l) -> l' = removelast l).
Proof.
  intros l'. subst l'.
  assert (Hfound : forall l1 e l2,
             l = l1 ++ e :: l2 -> key e = x -> ~ In x (map key l1) ->
             JS.splice l (JS.indexOf (map key l) x) 1 = l1 ++ l2).
  { intros l1 e l2 -> <- Hn. apply remove_matching. exact Hn. }
  destruct (in_dec string_dec x (map key l)) as [Hin|Hnot].
  - destruct (first_occurrence key x l Hin) as (l1 & e & l2 & Hl & He & Hn).
    pose proof (Hfound l1 e l2 Hl He Hn) as E. repeat split; auto.
    + rewrite E, Hl, !length_app. simpl. lia.
    + intros y Hy. rewrite E in Hy. rewrite Hl. apply in_app_or in Hy.
      apply in_or_app. simpl. tauto.
    + contradiction.
  - rewrite (remove_missing key l x Hnot). repeat split; auto.
    + apply removelast_length.
    + apply removelast_In.
    + intros k1 e1 k2 Hl' He' Hn'. exfalso. apply Hnot.
      rewrite Hl', map_app. apply in_or_app. right. simpl. now left.
Qed.

(** X7: A delete-experience (resp. delete-education) request of a caller who has
    a profile always answers 200 with the profile, whose sequence has lost
    exactly one entry when it was not empty: the first entry with the given
    identifier, or the last entry when no entry has it.  Nothing is added,
    and the other sequence, the paths and the identifier of the profile are
    as before. *)
Theorem delete_entry_removes_one (user : AuthUser) (p : Profile)
  (st : Store) :
  Profile_findOne (auth_id user) st = (inr (Some p), st) ->
  (forall x : string,
      exists p' st',
        delete_experience user x st = (inr (res_json 200 (JProfile p')), st')
        /\ length (experience p') = pred (length (experience p))
        /\ (forall e, In e (experience p') -> In e (experience p))
        /\ (forall l1 e l2,
               experience p = l1 ++ e :: l2 -> exp_id e = x ->
               ~ In x (map exp_id l1) -> experience p' = l1 ++ l2)
        /\ (~ In x (map exp_id (experience p)) ->
            experience p' = removelast (experience p))
        /\ education p' = education p
        /\ profile_paths p' = profile_paths p
        /\ profile_id p' = profile_id p)
  /\ (forall x : string,
      exists p' st',
        delete_education user x st = (inr (res_json 200 (JProfile p')), st')
        /\ length (education p') = pred (length (education p))
        /\ (forall e, In e (education p') -> In e (education p))
        /\ (forall l1 e l2,
               education p = l1 ++ e :: l2 -> edu_id e = x ->
               ~ In x (map edu_id l1) -> education p' = l1 ++ l2)
        /\ (~ In x (map edu_id (education p)) ->
            education p' = removelast (education p))
        /\ experience p' = experience p
        /\ profile_paths p' = profile_paths p
        /\ profile_id p' = profile_id p).
Proof.
  intros Hfind. split; intros x.
  - destruct (delete_experience_run user x st p Hfind) as [Hdel _].
    destruct (remove_by_key exp_id x (experience p)) as (H1 & H2 & H3 & H4).
    do 2 eexists. split; [exact Hdel|]. cbn [experience with_experience].
    repeat split; auto.
  - destruct (delete_education_run user x st p Hfind) as [Hdel _].
    destruct (remove_by_key edu_id x (education p)) as (H1 & H2 & H3 & H4).
    do 2 eexists. split; [exact Hdel|]. cbn [education with_education].
    repeat split; auto.
Qed.

(** X8: Two validated add-experience (resp. add-education) requests in a row put
    the second entry before the first, both before the entries stored
    earlier, and give them consecutive generated identifiers. *)
Theorem put_twice_most_recent_first (user : AuthUser) (p : Profile)
  (st : Store) :
  Profile_findOne (auth_id user) st = (inr (Some p), st) ->
  (forall body1 body2 : gmap string string,
      experience_checks body1 = [] -> experience_checks body2 = [] ->
      exists r1 st1 p2 st2,
        put_experience user body1 st = (inr r1, st1)
        /\ put_experience user body2 st1
           = (inr (res_json 200 (JProfile p2)), st2)
        /\ experience p2
           = newExp (newObjectId (S (next_id st))) body2
             :: newExp (newObjectId (next_id st)) body1 :: experience p
        /\ education p2 = education p)
  /\ (forall body1 body2 : gmap string string,
      education_checks body1 = [] -> education_checks body2 = [] ->
      exists r1 st1 p2 st2,
        put_education user body1 st = (inr r1, st1)
        /\ put_education user body2 st1
           = (inr (res_json 200 (JProfile p2)), st2)
        /\ education p2
           = newEdu (newObjectId (S (next_id st))) body2
             :: newEdu (newObjectId (next_id st)) body1 :: education p
        /\ experience p2 = experience p).
Proof.
  intros Hfind. split; intros body1 body2 Hc1 Hc2.
  - destruct (put_experience_run user body1 st p Hfind Hc1) as [Hput1 Hfind1].
    destruct (put_experience_run user body2 _ _ Hfind1 Hc2) as [Hput2 _].
    do 4 eexists. split; [exact Hput1|]. split; [exact Hput2|].
    split; reflexivity.
  - destruct (put_education_run user body1 st p Hfind Hc1) as [Hput1 Hfind1].
    destruct (put_education_run user body2 _ _ Hfind1 Hc2) as [Hput2 _].
    do 4 eexists. split; [exact Hput1|]. split; [exact Hput2|].
    split; reflexivity.
Qed.

(** ** Identities the store cannot cast *)

(** X9: When the caller's identifier is not one the store can cast, every
    protected route that looks the profile up answers 500 "Server Error",
    the delete-account route answers 400 "Profile Not Found", and none of
    them changes the store. *)
Theorem uncastable_identity (user : AuthUser) (st : Store) :
  isValidObjectId (auth_id user) = false ->
  get_me user st = (inr (res_send 500 "Server Error"), st)
  /\ (forall body, profile_checks body = [] ->
        post_profile user body st = (inr (res_send 500 "Server Error"), st))
  /\ (forall body, experience_checks body = [] ->
        put_experience user body st
        = (inr (res_send 500 "Server Error"), st))
  /\ (forall body, education_checks body = [] ->
        put_education user body st
        = (inr (res_send 500 "Server Error"), st))
  /\ (forall x, delete_experience user x st
                = (inr (res_send 500 "Server Error"), st))
  /\ (forall x, delete_education user x st
                = (inr (res_send 500 "Server Error"), st))
  /\ delete_profile user st
     = (inr (res_json 400 (msg "Profile Not Found")), st).
Proof.
  intros Hbad.
  assert (Hfind : Profile_findOne (auth_id user) st
                  = (inl (CastError "ObjectId"), st)).
  { unfold Profile_findOne, castObjectId, bind. now rewrite Hbad. }
  repeat split.
  - unfold get_me, try_catch, bind. now rewrite Hfind.
  - intros body Hc. unfold post_profile. rewrite Hc. cbn [isEmpty negb].
    unfold try_catch, bind. now rewrite Hfind.
  - intros body Hc. unfold put_experience. rewrite Hc. cbn [isEmpty negb].
    unfold try_catch, bind. now rewrite Hfind.
  - intros body Hc. unfold put_education. rewrite Hc. cbn [isEmpty negb].
    unfold try_catch, bind. now rewrite Hfind.
  - intros x. unfold delete_experience, try_catch, bind. now rewrite Hfind.
  - intros x. unfold delete_education, try_catch, bind. now rewrite Hfind.
  - unfold delete_profile, try_catch, bind, Profile_findOneAndRemove,
      castObjectId, bind. now rewrite Hbad.
Qed.


(** ** Reading profiles *)

Lemma populate_run (p : Profile) (st : Store) :
  populate p st = (inr (JPopulated p (public_owner st p)), st).
Proof.
  unfold populate, public_owner.
  destruct (profile_user p) as [uid|]; [|reflexivity].
  now destruct (find _ (users st)).
Qed.

Lemma populate_all_run (l : list Profile) (st : Store) :
  populate_all l st
  = (inr (map (fun p => JPopulated p (public_owner st p)) l), st).
Proof.
  induction l as [|p l IH]; [reflexivity|].
  cbn [populate_all]. unfold bind at 1. rewrite populate_run.
  unfold bind at 1. now rewrite IH.
Qed.

Lemma serialize_populated (l : list Profile) (st : Store) :
  serialize (JArray (map (fun p => JPopulated p (public_owner st p)) l))
  = Some (JArray (map (fun p => JPopulated p (public_owner st p)) l)).
Proof.
  induction l as [|p l IH]; [reflexivity|].
  cbn [map serialize] in *. injection IH as IH. now rewrite IH.
Qed.

(** X10: Fetching the caller's own profile: with a profile stored, GET me answers
    200 with it and with the owner's identifier, name and avatar joined in,
    and fetching by the caller's id answers the same; with none stored, GET
    me answers 400 "There is no profile for this user".  Neither changes the
    store. *)
Theorem get_me_decides (user : AuthUser) (st : Store) :
  isValidObjectId (auth_id user) = true ->
  (forall p : Profile,
      find (owned_by (auth_id user)) (profiles st) = Some p ->
      get_me user st
      = (inr (mkResponse 200
                (Json (Some (JPopulated p (public_owner st p))))), st)
      /\ get_profile_user (auth_id user) st = get_me user st
      /\ forall u : User,
           find (has_id (auth_id user)) (users st) = Some u ->
           public_owner st p
           = Some (mkPublicUser (user_id u) (user_name u) (user_avatar u)))
  /\ (find (owned_by (auth_id user)) (profiles st) = None ->
      get_me user st
      = (inr (mkResponse 400
                (Json (Some (JObject
                   [("msg", JString "There is no profile for this user")])))),
         st)).
Proof.
  intros Hvalid. split.
  - intros p Hp.
    assert (Hme : get_me user st
                  = (inr (mkResponse 200
                            (Json (Some (JPopulated p (public_owner st p))))),
                     st)).
    { unfold get_me, try_catch, bind at 1.
      rewrite Profile_findOne_run, Hp by exact Hvalid.
      unfold bind. now rewrite populate_run. }
    split; [exact Hme|]. split.
    + rewrite Hme. unfold get_profile_user, try_catch, bind at 1.
      rewrite Profile_findOne_run, Hp by exact Hvalid.
      unfold bind. now rewrite populate_run.
    + intros u Hu. unfold public_owner.
      destruct (owned_by_same _ _ (proj2 (find_In _ _ _ Hp)))
        as (u0 & Hu0 & Hsame).
      now rewrite Hu0, (find_has_id_same _ _ _ Hsame), Hu.
  - intros Hnone. unfold get_me, try_catch, bind.
    now rewrite Profile_findOne_run, Hnone by exact Hvalid.
Qed.

(** X11: GET profiles answers 200 with one document per stored profile, in the
    order of the store, each with its owner's public fields joined in; the
    document that a fetch by user id returns is always one of them.  The
    store is unchanged. *)
Theorem get_profiles_lists_all (st : Store) :
  exists docs : list jsval,
    get_profiles st = (inr (mkResponse 200 (Json (Some (JArray docs)))), st)
    /\ length docs = length (profiles st)
    /\ (forall (i : nat) (p : Profile),
           nth_error (profiles st) i = Some p ->
           nth_error docs i = Some (JPopulated p (public_owner st p)))
    /\ (forall (uid : string) (p : Profile),
           isValidObjectId uid = true ->
           find (owned_by uid) (profiles st) = Some p ->
           exists d : jsval,
             get_profile_user uid st
             = (inr (mkResponse 200 (Json (Some d))), st)
             /\ In d docs).
Proof.
  exists (map (fun p => JPopulated p (public_owner st p)) (profiles st)).
  split; [|split; [|split]].
  - unfold get_profiles, try_catch, bind, Profile_find.
    rewrite populate_all_run. unfold ret, res_json.
    now rewrite serialize_populated.
  - apply length_map.
  - intros i p Hi. now rewrite nth_error_map, Hi.
  - intros uid p Hvalid Hp. eexists. split.
    + unfold get_profile_user, try_catch, bind at 1.
      rewrite Profile_findOne_run, Hp by exact Hvalid.
      unfold bind. rewrite populate_run. reflexivity.
    + apply (in_map (fun p => JPopulated p (public_owner st p))).
      now destruct (find_In _ _ _ Hp).
Qed.

(** ** Deleting the account *)

Lemma find_owned_none uid (l : list Profile) :
  ~ In (Some (objectIdString uid)) (map profile_owner l) ->
  find (owned_by uid) l = None.
Proof.
  induction l as [|y l IH]; simpl; [reflexivity|]. intros Hn.
  destruct (owned_by uid y) eqn:E.
  - exfalso. apply Hn. left. now apply owned_by_owner.
  - apply IH. tauto.
Qed.

Lemma remove_first_owner_gone uid (l : list Profile) :
  List.NoDup (map profile_owner l) ->
  find (owned_by uid) (remove_first (owned_by uid) l) = None.
Proof.
  induction l as [|y l IH]; simpl; [reflexivity|]. intros Hnd.
  inversion Hnd as [|? ? Hnotin Hnd']; subst.
  destruct (owned_by uid y) eqn:E.
  - apply find_owned_none. now rewrite <- (owned_by_owner _ _ E).
  - simpl. rewrite E. auto.
Qed.

(** X12: After the account of a caller is deleted, in a store where no two
    profiles have the same owner, the caller has no profile left: GET me
    answers 400 "There is no profile for this user", a fetch by the caller's
    id answers 400 "Profile Not Found", and a validated add-experience or
    add-education request answers 500. *)
Theorem delete_profile_then_absent (user : AuthUser) (st : Store) :
  isValidObjectId (auth_id user) = true ->
  List.NoDup (map profile_owner (profiles st)) ->
  exists st',
    delete_profile user st = (inr (res_json 200 (msg "User Deleted")), st')
    /\ Profile_findOne (auth_id user) st' = (inr None, st')
    /\ get_me user st'
       = (inr (res_json 400 (msg "There is no profile for this user")), st')
    /\ get_profile_user (auth_id user) st'
       = (inr (res_json 400 (msg "Profile Not Found")), st')
    /\ (forall body, experience_checks body = [] ->
          put_experience user body st'
          = (inr (res_send 500 "Server Error"), st'))
    /\ (forall body, education_checks body = [] ->
          put_education user body st'
          = (inr (res_send 500 "Server Error"), st')).
Proof.
  intros Hvalid Hnd. eexists. split.
  { unfold delete_profile, try_catch, bind, Profile_findOneAndRemove,
      User_findOneAndRemove, castObjectId, bind.
    rewrite Hvalid. cbn. reflexivity. }
  match goal with
  | |- Profile_findOne _ ?s = _ /\ _ =>
      assert (Hfind : Profile_findOne (auth_id user) s = (inr None, s))
  end.
  { rewrite Profile_findOne_run by exact Hvalid. cbn [profiles].
    now rewrite remove_first_owner_gone. }
  split; [exact Hfind|]. repeat split.
  - unfold get_me, try_catch, bind. now rewrite Hfind.
  - unfold get_profile_user, try_catch, bind. now rewrite Hfind.
  - intros body Hc. now apply put_entry_without_profile.
  - intros body Hc. now apply put_entry_without_profile.
Qed.


(** ** Registration *)

Lemma post_users_run (entropy : string) (now : Z) (body : gmap string string)
  (st : Store) :
  register_checks body = [] ->
  find (has_email (toString (body !! "email"))) (users st) = None ->
  let u := mkUser (newObjectId (next_id st)) (toString (body !! "name"))
             (toString (body !! "email"))
             (gravatar_url (toString (body !! "email")))
             (bcrypt_hash (toString (body !! "password"))
                (bcrypt_genSalt 10 entropy)) in
  post_users jwtSecret entropy now body st
  = (inr (res_json 200
            (JObject
               [("token",
                 JToken (jwt_sign (Some (mkAuthUser (user_id u))) jwtSecret
                           360000 now))])),
     mkStore (users st ++ [u]) (profiles st) (posts st) (S (next_id st))).
Proof.
  intros Hchecks Hfind u.
  unfold post_users. rewrite Hchecks. cbn [isEmpty negb].
  unfold try_catch, bind at 1. unfold User_findOne at 1. rewrite Hfind.
  reflexivity.
Qed.

(** X13: A registration that succeeds makes the same request fail from then on:
    repeated with any salt and at any time, it is answered 400 "User already
    exists" and the store stays as the first registration left it, with one
    user more than before. *)
Theorem register_twice_conflicts (entropy : string) (now : Z)
  (body : gmap string string) (st : Store) :
  register_checks body = [] ->
  find (has_email (toString (body !! "email"))) (users st) = None ->
  exists r st',
    post_users jwtSecret entropy now body st = (inr r, st')
    /\ status r = 200%nat
    /\ length (users st') = S (length (users st))
    /\ forall (entropy' : string) (now' : Z),
         post_users jwtSecret entropy' now' body st'
         = (inr (res_json 400 user_exists), st').
Proof.
  intros Hchecks Hfind.
  pose proof (post_users_run entropy now body st Hchecks Hfind) as Hrun.
  cbv zeta in Hrun. do 2 eexists. split; [exact Hrun|].
  split; [reflexivity|]. split.
  - cbn [users]. rewrite length_app. simpl. lia.
  - intros entropy' now'. unfold post_users. rewrite Hchecks.
    cbn [isEmpty negb]. unfold try_catch, bind, User_findOne. cbn [users].
    rewrite find_app_none by exact Hfind. cbn [find]. unfold has_email at 1.
    cbn [user_email]. now rewrite String.eqb_refl.
Qed.

(** X14: Registration, then the token on the protected routes: the token of a
    successful registration passes the middleware until it expires; with the
    identity it carries, a validated create-or-update request creates or
    updates the profile of the new user, and GET me then answers 200 with
    that profile and the name and avatar given at registration. *)
Theorem register_then_profile_then_me (entropy : string) (now t : Z)
  (body pbody : gmap string string) (st : Store) :
  register_checks body = [] ->
  find (has_email (toString (body !! "email"))) (users st) = None ->
  isValidObjectId (newObjectId (next_id st)) = true ->
  find (has_id (newObjectId (next_id st))) (users st) = None ->
  profile_checks pbody = [] ->
  now <= t < now + 360000 ->
  exists (token : Jwt) (st1 : Store) (caller : AuthUser) (p : Profile)
         (st2 : Store),
    post_users jwtSecret entropy now body st
    = (inr (res_json 200 (JObject [("token", JToken token)])), st1)
    /\ auth jwtSecret t (Some token) = Next (Some caller)
    /\ auth_id caller = newObjectId (next_id st)
    /\ post_profile caller pbody st1 = (inr (res_json 200 (JProfile p)), st2)
    /\ profile_user p = Some (auth_id caller)
    /\ get_me caller st2
       = (inr (mkResponse 200
                 (Json (Some
                    (JPopulated p
                       (Some (mkPublicUser (auth_id caller)
                                (toString (body !! "name"))
                                (gravatar_url
                                   (toString (body !! "email"))))))))),
          st2).
Proof.
  intros Hchecks Hfind Hvalid Hfresh Hpchecks Ht.
  pose proof (post_users_run entropy now body st Hchecks Hfind) as Hrun.
  cbv zeta in Hrun. cbn [user_id] in Hrun.
  set (caller := mkAuthUser (newObjectId (next_id st))) in *.
  match type of Hrun with
  | _ = pair _ ?s => set (st1 := s) in *
  end.
  destruct (post_profile_result caller pbody st1 Hpchecks Hvalid)
    as (p & st2 & Hpost & Hp & Husers & _).
  pose proof (post_profile_result_user caller pbody st1 p st2 Hpchecks Hvalid
                Hpost) as Howner.
  exists (jwt_sign (Some caller) jwtSecret 360000 now), st1, caller, p, st2.
  split; [exact Hrun|]. split; [apply auth_accepts; lia|].
  split; [reflexivity|]. split; [exact Hpost|]. split; [exact Howner|].
  unfold get_me, try_catch, bind at 1.
  rewrite Profile_findOne_run, Hp by exact Hvalid.
  unfold bind. rewrite populate_run. unfold public_owner.
  rewrite Howner, Husers. cbn [users st1].
  rewrite find_app_none by exact Hfresh.
  cbn [find]. unfold has_id at 1, sameObjectId. cbn [user_id auth_id].
  now rewrite String.eqb_refl.
Qed.


(** ** What the handlers keep true of the store *)

Lemma map_update_first {A B : Type} (f : A -> bool) (g : A -> A)
  (h : A -> B) l :
  (forall y, In y l -> f y = true -> h (g y) = h y) ->
  map h (update_first f g l) = map h l.
Proof.
  induction l as [|y l IH]; simpl; [reflexivity|]. intros Hh.
  destruct (f y) eqn:E; simpl.
  - rewrite Hh; auto.
  - rewrite IH; auto.
Qed.

Lemma Forall_update_first {A : Type} (P : A -> Prop) (f : A -> bool)
  (g : A -> A) l :
  (forall y, P y -> P (g y)) ->
  List.Forall P l -> List.Forall P (update_first f g l).
Proof.
  intros Hg. induction 1 as [|y l Hy Hl IH]; simpl; [constructor|].
  destruct (f y); constructor; auto.
Qed.

Lemma NoDup_map_remove_first {A B : Type} (f : A -> bool) (h : A -> B) l :
  List.NoDup (map h l) -> List.NoDup (map h (remove_first f l)).
Proof.
  induction l as [|y l IH]; simpl; [auto|]. intros Hnd.
  inversion Hnd as [|? ? Hnotin Hnd']; subst.
  destruct (f y); [assumption|]. simpl. constructor; [|auto].
  intros Hin. apply Hnotin. clear -Hin.
  induction l as [|z l IH]; simpl in *; [contradiction|].
  destruct (f z); simpl in *; tauto.
Qed.

Lemma Forall_remove_first {A : Type} (P : A -> Prop) (f : A -> bool) l :
  List.Forall P l -> List.Forall P (remove_first f l).
Proof.
  induction 1 as [|y l Hy Hl IH]; simpl; [constructor|].
  destruct (f y); [assumption|]. now constructor.
Qed.

Lemma NoDup_snoc {A : Type} (l : list A) (x : A) :
  List.NoDup l -> ~ In x l -> List.NoDup (l ++ [x]).
Proof.
  induction l as [|y l IH]; simpl; intros Hnd Hn.
  - constructor; [simpl; tauto|constructor].
  - inversion Hnd as [|? ? Hnotin Hnd']; subst. constructor.
    + intros Hin. apply in_app_or in Hin. simpl in Hin.
      destruct Hin as [Hin|[->|[]]]; tauto.
    + apply IH; tauto.
Qed.

Lemma NoDup_map_eq {A B : Type} (h : A -> B) l a b :
  List.NoDup (map h l) -> In a l -> In b l -> h a = h b -> a = b.
Proof.
  induction l as [|y l IH]; simpl; [contradiction|]. intros Hnd Ha Hb E.
  inversion Hnd as [|? ? Hnotin Hnd']; subst.
  destruct Ha as [->|Ha], Hb as [->|Hb]; auto.
  - exfalso. apply Hnotin. rewrite E. now apply in_map.
  - exfalso. apply Hnotin. rewrite <- E. now apply in_map.
Qed.

Lemma generated_mono (n m : nat) (id : string) :
  (n <= m)%nat -> generated n id -> generated m id.
Proof. intros Hle (k & Hk & ->). exists k. split; [lia|reflexivity]. Qed.

Lemma store_ok_next (st : Store) (n : nat) :
  (next_id st <= n)%nat -> store_ok st ->
  store_ok (mkStore (users st) (profiles st) (posts st) n).
Proof.
  intros Hle [H1 H2 H3 H4]. constructor; cbn; auto.
  eapply List.Forall_impl; [|exact H2]. intros p. now apply generated_mono.
Qed.

(** Saving a changed copy of a stored profile, with its identifier and its
    owner. *)
Lemma store_ok_save_copy (st : Store) (p q : Profile) (n : nat) :
  store_ok st -> In p (profiles st) ->
  profile_id q = profile_id p -> profile_user q = profile_user p ->
  (next_id st <= n)%nat ->
  store_ok (mkStore (users st)
              (update_first (same_id q) (fun _ => q) (profiles st))
              (posts st) n).
Proof.
  intros [H1 H2 H3 H4] Hin Hid Howner Hle.
  assert (Hsame : forall y, In y (profiles st) -> same_id q y = true -> y = p).
  { intros y Hy E. unfold same_id in E. apply String.eqb_eq in E.
    apply (NoDup_map_eq profile_id (profiles st)); auto. congruence. }
  constructor; cbn.
  - rewrite map_update_first; [exact H1|].
    intros y Hy E. rewrite (Hsame y Hy E). exact Hid.
  - apply Forall_update_first.
    + intros y _. rewrite Hid. rewrite List.Forall_forall in H2.
      eapply generated_mono; [exact Hle|]. now apply H2.
    + eapply List.Forall_impl; [|exact H2]. intros y. now apply generated_mono.
  - rewrite map_update_first; [exact H3|].
    intros y Hy E. rewrite (Hsame y Hy E). unfold profile_owner.
    now rewrite Howner.
  - exact H4.
Qed.

Lemma find_none_not_in {A B : Type} (f : A -> bool) (h : A -> B) (b : B) l :
  (forall y, h y = b -> f y = true) ->
  find f l = None -> ~ In b (map h l).
Proof.
  intros Hf. induction l as [|y l IH]; simpl; [tauto|].
  destruct (f y) eqn:E; [discriminate|]. intros Hnone [Hy|Hin].
  - rewrite (Hf y Hy) in E. discriminate.
  - now apply IH.
Qed.

Lemma profile_owner_owned uid (y : Profile) :
  profile_owner y = Some (objectIdString uid) -> owned_by uid y = true.
Proof.
  unfold profile_owner, owned_by, sameObjectId.
  destruct (profile_user y) as [u|]; [|discriminate].
  intros [= ->]. apply String.eqb_refl.
Qed.

(** X15: Served one at a time, every request leaves the store well formed:
    if profile identifiers are generated and pairwise distinct, no two
    profiles have the same owner and no two users the same email, and the
    next identifier of the generator is not one it gave before, then the
    same holds after the request has run alone to its answer, whatever the
    request and the answer.  Requests whose handlers interleave are outside
    this statement. *)
Theorem handle_keeps_store_ok (r : Request) (st : Store) :
  store_ok st ->
  (forall k : nat, (k < next_id st)%nat ->
                   newObjectId k <> newObjectId (next_id st)) ->
  store_ok (snd (handle jwtSecret r st)).
Proof.
  intros Hok Hfresh. pose proof Hok as [H1 H2 H3 H4].
  destruct r as [entropy now body|body| |user|user body| |uid|user
                |user body|user x|user body|user x]; cbn [handle].
  - (* POST users *)
    unfold post_users. destruct (register_checks body); cbn [isEmpty negb];
      [|exact Hok].
    unfold try_catch, bind at 1, User_findOne at 1.
    destruct (find _ (users st)) eqn:Hfind; [exact Hok|].
    cbn. constructor; cbn; auto.
    + eapply List.Forall_impl; [|exact H2]. intros p.
      apply generated_mono. lia.
    + rewrite map_app. apply NoDup_snoc; [exact H4|].
      apply (find_none_not_in _ _ _ _ (fun y Hy => proj2 (String.eqb_eq _ _) Hy)
               Hfind).
  - (* POST users, stub *)
    unfold post_users_stub. now destruct (register_checks body).
  - exact Hok.
  - (* GET me *)
    unfold get_me, try_catch, bind at 1, Profile_findOne, castObjectId,
      bind at 1.
    destruct (isValidObjectId (auth_id user)); [|exact Hok]. cbn [ret].
    destruct (find _ (profiles st)); [|exact Hok].
    unfold bind. now rewrite populate_run.
  - (* POST profile *)
    unfold post_profile.
    destruct (profile_checks body) eqn:Hchecks; cbn [isEmpty negb];
      [|exact Hok].
    destruct (isValidObjectId (auth_id user)) eqn:Hvalid.
    + destruct (post_profile_result user body st Hchecks Hvalid)
        as (p & st' & Hrun & _ & Hu & Hposts & Hcase).
      unfold post_profile in Hrun. rewrite Hchecks in Hrun.
      cbn [isEmpty negb] in Hrun. rewrite Hrun. cbn [snd].
      rewrite <- (store_eta st'), Hu, Hposts.
      destruct (find (owned_by (auth_id user)) (profiles st)) as [p0|]
        eqn:Hfind.
      * destruct Hcase as (-> & -> & ->).
        assert (Hown : forall y, owned_by (auth_id user) y = true ->
                   profile_owner (apply_set (profileFields user body) y)
                   = profile_owner y).
        { intros y Hy. rewrite (owned_by_owner _ _ Hy).
          unfold profile_owner, profile_user. cbn [apply_set profile_paths].
          now rewrite (lookup_union_Some_l _ _ _ _
                         (profileFields_user user body)). }
        constructor; cbn.
        -- now rewrite map_update_first.
        -- now apply Forall_update_first.
        -- rewrite map_update_first; auto.
        -- exact H4.
      * destruct Hcase as (Hp & -> & ->).
        assert (Hnew : existsb (same_id p) (profiles st) = false).
        { apply not_true_is_false. intros E.
          apply existsb_exists in E as (y & Hy & E).
          unfold same_id in E. apply String.eqb_eq in E.
          rewrite List.Forall_forall in H2.
          destruct (H2 y Hy) as (k & Hk & Hyk).
          apply (Hfresh k Hk). rewrite <- Hyk, E, Hp. reflexivity. }
        rewrite Hnew.
        constructor; cbn.
        -- rewrite map_app. apply NoDup_snoc; [exact H1|].
           intros Hin. apply in_map_iff in Hin as (y & Hyid & Hy).
           rewrite List.Forall_forall in H2.
           destruct (H2 y Hy) as (k & Hk & Hyk).
           apply (Hfresh k Hk). rewrite <- Hyk, Hyid, Hp. reflexivity.
        -- apply List.Forall_app. split.
           ++ eapply List.Forall_impl; [|exact H2]. intros y.
              apply generated_mono. lia.
           ++ constructor; [|constructor]. exists (next_id st).
              split; [lia|]. now rewrite Hp.
        -- rewrite map_app. apply NoDup_snoc; [exact H3|].
           replace (profile_owner p)
             with (Some (objectIdString (auth_id user))).
           ++ apply (find_none_not_in (owned_by (auth_id user)) profile_owner
                       _ _ (profile_owner_owned (auth_id user)) Hfind).
           ++ rewrite Hp. unfold profile_owner, profile_user. cbn.
              now rewrite profileFields_user.
        -- exact H4.
    + unfold try_catch, bind, Profile_findOne, castObjectId, bind.
      rewrite Hvalid. exact Hok.
  - (* GET profiles *)
    unfold get_profiles, try_catch, bind, Profile_find.
    now rewrite populate_all_run.
  - (* GET profile by user id *)
    unfold get_profile_user, try_catch, bind at 1, Profile_findOne,
      castObjectId, bind at 1.
    destruct (isValidObjectId uid); [|exact Hok]. cbn [ret].
    destruct (find _ (profiles st)); [|exact Hok].
    unfold bind. now rewrite populate_run.
  - (* DELETE profile *)
    unfold delete_profile, try_catch, bind, Profile_findOneAndRemove,
      User_findOneAndRemove, castObjectId, bind.
    destruct (isValidObjectId (auth_id user)); [|exact Hok]. cbn.
    constructor; cbn.
    + now apply NoDup_map_remove_first.
    + now apply Forall_remove_first.
    + now apply NoDup_map_remove_first.
    + now apply NoDup_map_remove_first.
  - (* PUT experience *)
    unfold put_experience.
    destruct (experience_checks body) eqn:Hchecks; cbn [isEmpty negb];
      [|exact Hok].
    destruct (Profile_findOne (auth_id user) st) as [[e|[p|]] st0] eqn:Hfind.
    + unfold try_catch, bind. rewrite Hfind.
      unfold Profile_findOne, castObjectId, bind in Hfind.
      destruct (isValidObjectId (auth_id user)); cbn in Hfind;
        injection Hfind as _ <-; exact Hok.
    + assert (st0 = st) as ->.
      { unfold Profile_findOne, castObjectId, bind in Hfind.
        destruct (isValidObjectId (auth_id user)); cbn in Hfind;
          now injection Hfind. }
      destruct (put_experience_run user body st p Hfind Hchecks) as [Hrun _].
      unfold put_experience in Hrun. rewrite Hchecks in Hrun.
      cbn [isEmpty negb] in Hrun. rewrite Hrun. cbn [snd].
      destruct (Profile_findOne_Some _ _ _ Hfind) as [_ Hp].
      apply (store_ok_save_copy st p);
        [exact Hok| |reflexivity|reflexivity|cbn; lia].
      now destruct (find_In _ _ _ Hp).
    + assert (st0 = st) as ->.
      { unfold Profile_findOne, castObjectId, bind in Hfind.
        destruct (isValidObjectId (auth_id user)); cbn in Hfind;
          now injection Hfind. }
      unfold try_catch, bind. rewrite Hfind. exact Hok.
  - (* DELETE experience *)
    destruct (Profile_findOne (auth_id user) st) as [[e|[p|]] st0] eqn:Hfind.
    + unfold delete_experience, try_catch, bind. rewrite Hfind.
      unfold Profile_findOne, castObjectId, bind in Hfind.
      destruct (isValidObjectId (auth_id user)); cbn in Hfind;
        injection Hfind as _ <-; exact Hok.
    + assert (st0 = st) as ->.
      { unfold Profile_findOne, castObjectId, bind in Hfind.
        destruct (isValidObjectId (auth_id user)); cbn in Hfind;
          now injection Hfind. }
      destruct (delete_experience_run user x st p Hfind) as [Hrun _].
      rewrite Hrun. cbn [snd].
      destruct (Profile_findOne_Some _ _ _ Hfind) as [_ Hp].
      apply (store_ok_save_copy st p);
        [exact Hok| |reflexivity|reflexivity|cbn; lia].
      now destruct (find_In _ _ _ Hp).
    + assert (st0 = st) as ->.
      { unfold Profile_findOne, castObjectId, bind in Hfind.
        destruct (isValidObjectId (auth_id user)); cbn in Hfind;
          now injection Hfind. }
      unfold delete_experience, try_catch, bind. rewrite Hfind. exact Hok.
  - (* PUT education *)
    unfold put_education.
    destruct (education_checks body) eqn:Hchecks; cbn [isEmpty negb];
      [|exact Hok].
    destruct (Profile_findOne (auth_id user) st) as [[e|[p|]] st0] eqn:Hfind.
    + unfold try_catch, bind. rewrite Hfind.
      unfold Profile_findOne, castObjectId, bind in Hfind.
      destruct (isValidObjectId (auth_id user)); cbn in Hfind;
        injection Hfind as _ <-; exact Hok.
    + assert (st0 = st) as ->.
      { unfold Profile_findOne, castObjectId, bind in Hfind.
        destruct (isValidObjectId (auth_id user)); cbn in Hfind;
          now injection Hfind. }
      destruct (put_education_run user body st p Hfind Hchecks) as [Hrun _].
      unfold put_education in Hrun. rewrite Hchecks in Hrun.
      cbn [isEmpty negb] in Hrun. rewrite Hrun. cbn [snd].
      destruct (Profile_findOne_Some _ _ _ Hfind) as [_ Hp].
      apply (store_ok_save_copy st p);
        [exact Hok| |reflexivity|reflexivity|cbn; lia].
      now destruct (find_In _ _ _ Hp).
    + assert (st0 = st) as ->.
      { unfold Profile_findOne, castObjectId, bind in Hfind.
        destruct (isValidObjectId (auth_id user)); cbn in Hfind;
          now injection Hfind. }
      unfold try_catch, bind. rewrite Hfind. exact Hok.
  - (* DELETE education *)
    destruct (Profile_findOne (auth_id user) st) as [[e|[p|]] st0] eqn:Hfind.
    + unfold delete_education, try_catch, bind. rewrite Hfind.
      unfold Profile_findOne, castObjectId, bind in Hfind.
      destruct (isValidObjectId (auth_id user)); cbn in Hfind;
        injection Hfind as _ <-; exact Hok.
    + assert (st0 = st) as ->.
      { unfold Profile_findOne, castObjectId, bind in Hfind.
        destruct (isValidObjectId (auth_id user)); cbn in Hfind;
          now injection Hfind. }
      destruct (delete_education_run user x st p Hfind) as [Hrun _].
      rewrite Hrun. cbn [snd].
      destruct (Profile_findOne_Some _ _ _ Hfind) as [_ Hp].
      apply (store_ok_save_copy st p);
        [exact Hok| |reflexivity|reflexivity|cbn; lia].
      now destruct (find_In _ _ _ Hp).
    + assert (st0 = st) as ->.
      { unfold Profile_findOne, castObjectId, bind in Hfind.
        destruct (isValidObjectId (auth_id user)); cbn in Hfind;
          now injection Hfind. }
      unfold delete_education, try_catch, bind. rewrite Hfind. exact Hok.
Qed.


(** ** Skills *)

Lemma split_piece sep p :
  contains sep p = false -> JS.split sep p = [p].
Proof.
  induction p as [|c p IH]; [reflexivity|]. simpl.
  destruct (Ascii.eqb c sep); [discriminate|]. simpl.
  intros Hp. now rewrite IH.
Qed.

Lemma split_append sep p r :
  contains sep p = false ->
  JS.split sep (p +:+ String sep r) = p :: JS.split sep r.
Proof.
  induction p as [|c p IH].
  - intros _. change (JS.split sep (String sep r) = "" :: JS.split sep r).
    simpl. now rewrite Ascii.eqb_refl.
  - simpl contains. destruct (Ascii.eqb c sep) eqn:E; [discriminate|].
    simpl. intros Hp.
    change (JS.split sep (String c (p +:+ String sep r))
            = String c p :: JS.split sep r).
    simpl. now rewrite E, IH.
Qed.

Lemma split_join sep (l : list string) :
  l <> [] -> List.Forall (fun p => contains sep p = false) l ->
  JS.split sep (JS.join sep l) = l.
Proof.
  induction l as [|p l IH]; [contradiction|]. intros _ Hall.
  inversion Hall as [|? ? Hp Hl]; subst.
  destruct l as [|q l].
  - now apply split_piece.
  - rewrite join_cons, split_append by exact Hp.
    now rewrite IH.
Qed.

Lemma trimStart_contains c s :
  contains c s = false -> contains c (JS.trimStart s) = false.
Proof.
  induction s as [|d s IH]; [reflexivity|]. simpl.
  destruct (JS.isWhiteSpace d); [|now simpl].
  destruct (Ascii.eqb d c); [discriminate|]. exact IH.
Qed.

Lemma trimEnd_contains c s :
  contains c s = false -> contains c (JS.trimEnd s) = false.
Proof.
  induction s as [|d s IH]; [reflexivity|]. simpl.
  destruct (Ascii.eqb d c) eqn:E; [discriminate|]. simpl. intros Hs.
  specialize (IH Hs).
  destruct (JS.trimEnd s) as [|x t].
  - destruct (JS.isWhiteSpace d); simpl; [reflexivity|now rewrite E].
  - simpl in *. now rewrite E.
Qed.

Lemma trimStart_fixed s : starts_white s = false -> JS.trimStart s = s.
Proof. destruct s as [|c s]; simpl; [reflexivity|]. now intros ->. Qed.

Lemma trimEnd_fixed s : ends_white s = false -> JS.trimEnd s = s.
Proof.
  induction s as [|c s IH]; [reflexivity|].
  destruct s as [|d s].
  - simpl. now intros ->.
  - intros Hs. change (ends_white (String d s) = false) in Hs.
    cbn [JS.trimEnd]. cbn [JS.trimEnd] in IH. now rewrite (IH Hs).
Qed.

Lemma trim_trim s : JS.trim (JS.trim s) = JS.trim s.
Proof.
  destruct (trim_spec s) as (l & r & _ & _ & _ & Hs & He).
  unfold JS.trim at 1. now rewrite trimStart_fixed, trimEnd_fixed.
Qed.

(** X16: The stored skills are normalised: there is at least one, none holds a
    comma or has white space at either end, and sending them back joined by
    commas stores the same sequence again. *)
Theorem skills_normalised (skills : string) :
  skills_of skills <> []
  /\ List.Forall
       (fun skill => contains "," skill = false
                     /\ starts_white skill = false
                     /\ ends_white skill = false)
       (skills_of skills)
  /\ length (skills_of skills) = length (JS.split "," skills)
  /\ skills_of (JS.join "," (skills_of skills)) = skills_of skills.
Proof.
  unfold skills_of.
  destruct (split_cons "," skills) as (p & ps & E).
  pose proof (split_no_separator "," skills) as Hsep.
  assert (Hall : List.Forall (fun p => contains "," p = false)
                   (map JS.trim (JS.split "," skills))).
  { apply List.Forall_forall. intros t Ht.
    apply in_map_iff in Ht as (piece & <- & Hpiece).
    rewrite List.Forall_forall in Hsep.
    unfold JS.trim. apply trimEnd_contains, trimStart_contains.
    now apply Hsep. }
  split; [|split; [|split]].
  - rewrite E. discriminate.
  - apply List.Forall_forall. intros t Ht. split.
    + rewrite List.Forall_forall in Hall. now apply Hall.
    + apply in_map_iff in Ht as (piece & <- & _).
      destruct (trim_spec piece) as (l & r & _ & _ & _ & Hs & He). auto.
  - apply length_map.
  - rewrite split_join; [|rewrite E; discriminate|exact Hall].
    rewrite map_map. apply map_ext. intros piece. apply trim_trim.
Qed.

End MoreProperties.

(** ** The further statements at concrete requests *)

Section MoreRuns.
Local Existing Instance Demo.packages.

Lemma post_profile_creates_witness :
  profile_checks Demo.with_skills = []
  /\ isValidObjectId (auth_id Demo.alice) = true
  /\ find (owned_by (auth_id Demo.alice)) (profiles Demo.store_no_profile)
     = None
  /\ exists p st',
       post_profile Demo.alice Demo.with_skills Demo.store_no_profile
       = (inr (res_json 200 (JProfile p)), st')
       /\ experience p = [] /\ education p = []
       /\ profiles st' = [p].
Proof.
  assert (Hchecks : profile_checks Demo.with_skills = [])
    by (vm_compute; reflexivity).
  assert (Hvalid : isValidObjectId (auth_id Demo.alice) = true)
    by reflexivity.
  assert (Hnone : find (owned_by (auth_id Demo.alice))
                    (profiles Demo.store_no_profile) = None)
    by reflexivity.
  destruct (post_profile_creates Demo.alice Demo.with_skills
              Demo.store_no_profile Hchecks Hvalid Hnone)
    as (p & st' & Hrun & _ & _ & _ & Hexp & Hedu & _ & _ & Happ).
  repeat split; auto. exists p, st'. repeat split; auto.
Defined.

Lemma post_profile_updates_witness :
  profile_checks Demo.update_company = []
  /\ isValidObjectId (auth_id Demo.bob) = true
  /\ find (owned_by (auth_id Demo.bob)) (profiles Demo.bob_store)
     = Some Demo.bob_profile
  /\ exists p st',
       post_profile Demo.bob Demo.update_company Demo.bob_store
       = (inr (res_json 200 (JProfile p)), st')
       /\ experience p = [Demo.bob_job]
       /\ profile_paths p !! "bio" = None.
Proof.
  assert (Hchecks : profile_checks Demo.update_company = [])
    by (vm_compute; reflexivity).
  assert (Hvalid : isValidObjectId (auth_id Demo.bob) = true)
    by (vm_compute; reflexivity).
  assert (Hsome : find (owned_by (auth_id Demo.bob)) (profiles Demo.bob_store)
                  = Some Demo.bob_profile)
    by (vm_compute; reflexivity).
  destruct (post_profile_updates Demo.bob Demo.update_company Demo.bob_store
              Demo.bob_profile Hchecks Hvalid Hsome)
    as (p & st' & Hrun & _ & Hexp & _ & Hkeep & _).
  repeat split; auto. exists p, st'. repeat split; auto.
  all: try (rewrite (Hkeep "bio");
            [vm_compute; reflexivity|discriminate|discriminate|
             vm_compute; reflexivity]).
Defined.

Lemma post_profile_idempotent_witness :
  profile_checks Demo.update_company = []
  /\ isValidObjectId (auth_id Demo.bob) = true
  /\ exists r st',
       post_profile Demo.bob Demo.update_company Demo.bob_store = (inr r, st')
       /\ post_profile Demo.bob Demo.update_company st' = (inr r, st').
Proof.
  assert (Hchecks : profile_checks Demo.update_company = [])
    by (vm_compute; reflexivity).
  assert (Hvalid : isValidObjectId (auth_id Demo.bob) = true)
    by (vm_compute; reflexivity).
  repeat split; auto.
  exact (post_profile_idempotent Demo.bob Demo.update_company Demo.bob_store
           Hchecks Hvalid).
Defined.

Lemma bob_has_profile :
  Profile_findOne (auth_id Demo.bob) Demo.bob_store
  = (inr (Some Demo.bob_profile), Demo.bob_store).
Proof. vm_compute. reflexivity. Qed.

Lemma put_then_delete_restores_witness :
  Profile_findOne (auth_id Demo.bob) Demo.bob_store
  = (inr (Some Demo.bob_profile), Demo.bob_store)
  /\ experience_checks Demo.new_job = []
  /\ exists e st1 st2,
       put_experience Demo.bob Demo.new_job Demo.bob_store
       = (inr (res_json 200
                 (JProfile (with_experience Demo.bob_profile
                              [e; Demo.bob_job]))), st1)
       /\ delete_experience Demo.bob (exp_id e) st1
          = (inr (res_json 200 (JProfile Demo.bob_profile)), st2).
Proof.
  assert (Hjob : experience_checks Demo.new_job = [])
    by (vm_compute; reflexivity).
  destruct (put_then_delete_restores Demo.bob Demo.bob_profile Demo.bob_store
              bob_has_profile) as [Hexp _].
  destruct (Hexp Demo.new_job Hjob) as (e & st1 & st2 & Hput & Hdel & _).
  split; [exact bob_has_profile|]. split; [exact Hjob|].
  exists e, st1, st2. auto.
Defined.

Lemma delete_entry_removes_one_witness :
  Profile_findOne (auth_id Demo.bob) Demo.bob_store
  = (inr (Some Demo.bob_profile), Demo.bob_store)
  /\ exists p' st',
       delete_experience Demo.bob Demo.unknown_id Demo.bob_store
       = (inr (res_json 200 (JProfile p')), st')
       /\ length (experience p') = 0%nat.
Proof.
  destruct (delete_entry_removes_one Demo.bob Demo.bob_profile Demo.bob_store
              bob_has_profile) as [Hexp _].
  destruct (Hexp Demo.unknown_id) as (p' & st' & Hrun & Hlen & _).
  split; [exact bob_has_profile|]. exists p', st'. auto.
Defined.

Lemma put_twice_most_recent_first_witness :
  Profile_findOne (auth_id Demo.bob) Demo.bob_store
  = (inr (Some Demo.bob_profile), Demo.bob_store)
  /\ experience_checks Demo.new_job = []
  /\ exists r1 st1 p2 st2,
       put_experience Demo.bob Demo.new_job Demo.bob_store = (inr r1, st1)
       /\ put_experience Demo.bob Demo.new_job st1
          = (inr (res_json 200 (JProfile p2)), st2)
       /\ map exp_id (experience p2)
          = [newObjectId 5; newObjectId 4; newObjectId 2].
Proof.
  assert (Hjob : experience_checks Demo.new_job = [])
    by (vm_compute; reflexivity).
  destruct (put_twice_most_recent_first Demo.bob Demo.bob_profile
              Demo.bob_store bob_has_profile) as [Hexp _].
  destruct (Hexp Demo.new_job Demo.new_job Hjob Hjob)
    as (r1 & st1 & p2 & st2 & Hput1 & Hput2 & Hlist & _).
  split; [exact bob_has_profile|]. split; [exact Hjob|].
  exists r1, st1, p2, st2. repeat split; auto.
  rewrite Hlist. reflexivity.
Defined.

Lemma uncastable_identity_witness :
  isValidObjectId (auth_id Demo.invalid_user) = false
  /\ get_me Demo.invalid_user Demo.store
     = (inr (res_send 500 "Server Error"), Demo.store)
  /\ delete_profile Demo.invalid_user Demo.store
     = (inr (res_json 400 (msg "Profile Not Found")), Demo.store).
Proof.
  assert (Hbad : isValidObjectId (auth_id Demo.invalid_user) = false)
    by reflexivity.
  destruct (uncastable_identity Demo.invalid_user Demo.store Hbad)
    as (Hme & _ & _ & _ & _ & _ & Hdel).
  auto.
Defined.

Lemma get_me_decides_witness :
  isValidObjectId (auth_id Demo.bob) = true
  /\ get_me Demo.bob Demo.bob_store
     = (inr (mkResponse 200
               (Json (Some (JPopulated Demo.bob_profile
                              (public_owner Demo.bob_store
                                 Demo.bob_profile))))), Demo.bob_store)
  /\ get_profile_user (auth_id Demo.bob) Demo.bob_store
     = get_me Demo.bob Demo.bob_store.
Proof.
  assert (Hvalid : isValidObjectId (auth_id Demo.bob) = true)
    by (vm_compute; reflexivity).
  destruct (get_me_decides Demo.bob Demo.bob_store Hvalid) as [Hsome _].
  destruct (Hsome Demo.bob_profile) as (Hme & Hsame & _);
    [vm_compute; reflexivity|].
  auto.
Defined.

Lemma delete_profile_then_absent_witness :
  isValidObjectId (auth_id Demo.bob) = true
  /\ List.NoDup (map profile_user (profiles Demo.bob_store))
  /\ exists st',
       delete_profile Demo.bob Demo.bob_store
       = (inr (res_json 200 (msg "User Deleted")), st')
       /\ get_profile_user (auth_id Demo.bob) st'
          = (inr (res_json 400 (msg "Profile Not Found")), st').
Proof.
  assert (Hvalid : isValidObjectId (auth_id Demo.bob) = true)
    by (vm_compute; reflexivity).
  assert (Hnd : List.NoDup (map profile_user (profiles Demo.bob_store))).
  { constructor; [simpl; tauto|constructor]. }
  destruct (delete_profile_then_absent Demo.bob Demo.bob_store Hvalid Hnd)
    as (st' & Hdel & _ & _ & Hget & _).
  repeat split; auto. exists st'. auto.
Defined.

Lemma register_twice_conflicts_witness :
  register_checks Demo.register_carol = []
  /\ find (has_email (toString (Demo.register_carol !! "email")))
       (users Demo.bob_store) = None
  /\ exists r st',
       post_users Demo.secret Demo.entropy 1000 Demo.register_carol
         Demo.bob_store = (inr r, st')
       /\ post_users Demo.secret Demo.entropy 2000 Demo.register_carol st'
          = (inr (res_json 400 user_exists), st').
Proof.
  assert (Hchecks : register_checks Demo.register_carol = [])
    by (vm_compute; reflexivity).
  assert (Hfind : find (has_email (toString (Demo.register_carol !! "email")))
                    (users Demo.bob_store) = None)
    by (vm_compute; reflexivity).
  destruct (register_twice_conflicts Demo.secret Demo.entropy 1000
              Demo.register_carol Demo.bob_store Hchecks Hfind)
    as (r & st' & Hrun & _ & _ & Hagain).
  repeat split; auto. exists r, st'. auto.
Defined.

Lemma register_then_profile_then_me_witness :
  register_checks Demo.register_carol = []
  /\ profile_checks Demo.with_skills = []
  /\ exists token st1 caller p st2,
       post_users Demo.secret Demo.entropy 1000 Demo.register_carol
         Demo.bob_store
       = (inr (res_json 200 (JObject [("token", JToken token)])), st1)
       /\ auth Demo.secret 2000 (Some token) = Next (Some caller)
       /\ post_profile caller Demo.with_skills st1
          = (inr (res_json 200 (JProfile p)), st2)
       /\ get_me caller st2
          = (inr (mkResponse 200
                    (Json (Some
                       (JPopulated p
                          (Some (mkPublicUser (auth_id caller) "Carol"
                                   (gravatar_url "carol@example.com"))))))),
             st2).
Proof.
  assert (Hchecks : register_checks Demo.register_carol = [])
    by (vm_compute; reflexivity).
  assert (Hfind : find (has_email (toString (Demo.register_carol !! "email")))
                    (users Demo.bob_store) = None)
    by (vm_compute; reflexivity).
  assert (Hvalid : isValidObjectId (newObjectId (next_id Demo.bob_store))
                   = true)
    by (vm_compute; reflexivity).
  assert (Hfresh : find (has_id (newObjectId (next_id Demo.bob_store)))
                     (users Demo.bob_store) = None)
    by (vm_compute; reflexivity).
  assert (Hpchecks : profile_checks Demo.with_skills = [])
    by (vm_compute; reflexivity).
  assert (Ht : 1000 <= 2000 < 1000 + 360000) by lia.
  destruct (register_then_profile_then_me Demo.secret Demo.entropy 1000 2000
              Demo.register_carol Demo.with_skills Demo.bob_store
              Hchecks Hfind Hvalid Hfresh Hpchecks Ht)
    as (token & st1 & caller & p & st2 & Hreg & Hauth & _ & Hpost & _ & Hme).
  repeat split; auto. exists token, st1, caller, p, st2. auto.
Defined.

Lemma bob_store_ok : store_ok Demo.bob_store.
Proof.
  constructor; cbn.
  - constructor; [simpl; tauto|constructor].
  - constructor; [|constructor]. exists 1%nat. split; [lia|reflexivity].
  - constructor; [simpl; tauto|constructor].
  - constructor; [simpl; tauto|constructor].
Qed.

Lemma bob_store_next_fresh (k : nat) :
  (k < next_id Demo.bob_store)%nat ->
  newObjectId k <> newObjectId (next_id Demo.bob_store).
Proof.
  cbn [next_id Demo.bob_store]. intros Hk.
  do 4 (destruct k as [|k]; [vm_compute; discriminate|]). lia.
Qed.

Lemma handle_keeps_store_ok_witness :
  store_ok Demo.bob_store
  /\ store_ok
       (snd (handle Demo.secret (PostProfile Demo.alice Demo.with_skills)
               Demo.bob_store))
  /\ store_ok
       (snd (handle Demo.secret
               (PostUsers Demo.entropy 1000 Demo.register_carol)
               Demo.bob_store)).
Proof.
  split; [exact bob_store_ok|]. split.
  - exact (handle_keeps_store_ok Demo.secret
             (PostProfile Demo.alice Demo.with_skills) Demo.bob_store
             bob_store_ok bob_store_next_fresh).
  - exact (handle_keeps_store_ok Demo.secret
             (PostUsers Demo.entropy 1000 Demo.register_carol) Demo.bob_store
             bob_store_ok bob_store_next_fresh).
Defined.

End MoreRuns.
